(** * sphinx_needs.builder: output builders for the needs data

    A shallow embedding of [src/sphinx_needs/builder.py]: the builder base
    class, the three concrete builders ([NeedsBuilder], [NeedumlsBuilder],
    [NeedsIdBuilder]) and the three post-build hooks.

    The Python code is effectful: it reads and writes files, creates
    directories, logs, and raises and catches exceptions.  It is embedded in
    a state-and-exception monad [M] over an explicit [World]. *)

From stdpp Require Import gmap strings list fin_maps.
From Stdlib Require Import Ascii String.

Local Open Scope string_scope.

(** ** Python strings and [os.path] *)

Module PyStr.

(** Truth value of a [str]: only the empty string is false. *)
Definition truthy (s : string) : bool :=
  match s with
  | EmptyString => false
  | String _ _ => true
  end.

Definition is_sep (c : ascii) : bool := Ascii.eqb c "/"%char.

(** [s.startswith("/")] *)
Definition startswith_sep (s : string) : bool :=
  match s with
  | String c _ => is_sep c
  | EmptyString => false
  end.

(** [s.endswith("/")] *)
Fixpoint endswith_sep (s : string) : bool :=
  match s with
  | EmptyString => false
  | String c EmptyString => is_sep c
  | String _ s' => endswith_sep s'
  end.

(** No separator occurs in [s]: [s] is a plain file name. *)
Definition no_sep (s : string) : bool :=
  forallb (fun c => negb (is_sep c)) (list_ascii_of_string s).

Fixpoint drop_while (p : ascii -> bool) (l : list ascii) : list ascii :=
  match l with
  | [] => []
  | c :: l' => if p c then drop_while p l' else l
  end.

End PyStr.

Module os_path.
Import PyStr.

(** [posixpath.join(a, b)]: an absolute [b] discards [a]; otherwise the
    two are glued with exactly one separator between them. *)
Definition join (a b : string) : string :=
  if startswith_sep b then b
  else if negb (truthy a) || endswith_sep a then a +:+ b
  else a +:+ "/" +:+ b.

(** [posixpath.dirname(p)]: everything up to the last separator, with the
    trailing separators removed unless the head is made of separators only. *)
Definition dirname (p : string) : string :=
  let head_rev := drop_while (fun c => negb (is_sep c)) (rev (list_ascii_of_string p)) in
  if forallb is_sep head_rev
  then string_of_list_ascii (rev head_rev)
  else string_of_list_ascii (rev (drop_while is_sep head_rev)).

(** The directory [d] and its ancestors, nearest first: what
    [os.makedirs(d, exist_ok=True)] makes sure exists. *)
Fixpoint chain (fuel : nat) (d : string) : list string :=
  match fuel with
  | O => []
  | S fuel' =>
      d :: (if negb (truthy (dirname d)) || String.eqb (dirname d) d
            then []
            else chain fuel' (dirname d))
  end.

Definition ancestors (d : string) : list string := chain (S (String.length d)) d.

End os_path.

(** ** The needs registry

    The record types live in [sphinx_needs/data.py] and the configuration
    view in [sphinx_needs/config.py]; only their uses are in
    [builder.py]. *)

(** Modelled from the spec: the need record type [NeedsInfoType] (declared in
    sphinx_needs/data.py, absent here) is "a mapping with at least an [id]
    field (unique string) and arbitrary additional descriptive fields",
    opaque and read-only for the builders. *)
Record NeedsInfoType := {
  need_id : string;
  need_fields : list (string * string)
}.

(** Modelled from the spec: the filter record type [NeedsFilterType]
    (sphinx_needs/data.py, absent here) is "a mapping describing a named
    filter expression and an [export_id] flag". *)
Record NeedsFilterType := {
  export_id : bool;
  filter_fields : list (string * string)
}.

(** Modelled from the spec: the diagram record type [NeedsUmlType]
    (sphinx_needs/data.py, absent here) is "a mapping containing a [save]
    path (optional) and pre-rendered [content_calculated] text". *)
Record NeedsUmlType := {
  save : option string;
  content_calculated : string
}.

(** Truth value of [needuml["save"]]: [None] and [""] are false. *)
Definition save_is_set (u : NeedsUmlType) : bool :=
  match save u with
  | Some s => PyStr.truthy s
  | None => false
  end.

(** The path held by a [save] field. *)
Definition save_path_of (u : NeedsUmlType) : string := default "" (save u).

(** Modelled from the spec: the typed configuration view [NeedsSphinxConfig]
    (sphinx_needs/config.py, absent here) offers "enable-JSON-export,
    enable-per-need-export, enable-diagram-export (with subfolder path),
    explicit needs-file path, per-need output subdirectory name,
    builder-level filter expression string". *)
Record NeedsSphinxConfig := {
  file : string;
  build_json : bool;
  build_needumls : string;
  build_json_per_id : bool;
  build_json_per_id_path : string;
  builder_filter : string
}.

(** The host's configuration object: [version] may be absent, which is why
    the builders read it with [getattr(env.config, "version", "unset")]. *)
Record Config := {
  version : option string;
  needs_options : NeedsSphinxConfig
}.

Definition getattr_version (c : Config) : string := default "unset" (version c).

(** A Python [dict] read through [.values()]: insertion order matters. *)
Definition values {V : Type} (d : list (string * V)) : list V := d.*2.

(** The host's build environment, with the three collections that
    [SphinxNeedsData(env)] exposes. *)
Record BuildEnvironment := {
  config : Config;
  found_docs : gset string;
  needs_all_needs : list (string * NeedsInfoType);
  needs_all_filters : list (string * NeedsFilterType);
  needs_all_umls : list (string * NeedsUmlType)
}.

Definition get_or_create_needs (env : BuildEnvironment) := needs_all_needs env.
Definition get_or_create_filters (env : BuildEnvironment) := needs_all_filters env.
Definition get_or_create_umls (env : BuildEnvironment) := needs_all_umls env.

(** ** The document kept by [NeedsList] and the files on disk *)

(** Modelled from the spec: the "need list file state" ([NeedsList] of
    sphinx_needs/needsfile.py, absent here) is "an on-disk JSON document
    keyed by version, each version mapping to the need records valid for
    that version plus any exported filters", "each version containing a list
    of need entries and a list of exported filter definitions". *)
Record VersionEntry := {
  ve_needs : list NeedsInfoType;
  ve_filters : list NeedsFilterType
}.

Abbreviation NeedsDoc := (gmap string VersionEntry).

(** What a file holds: a needs document, a text, or what is left of a file
    that was opened for writing and whose write did not come to its end. *)
Inductive FileContent :=
| JsonDoc (d : NeedsDoc)
| Text (s : string)
| Partial.

(** ** The world outside the builder *)

Inductive exn :=
| OSError (msg : string)
| TypeError (msg : string)
| ValueError (msg : string)
| AttributeError (msg : string)
| NotImplementedError (msg : string)
| KeyboardInterrupt.

(** [str(e)] *)
Definition exn_str (e : exn) : string :=
  match e with
  | OSError m | TypeError m | ValueError m | AttributeError m | NotImplementedError m => m
  | KeyboardInterrupt => ""
  end.

(** [isinstance(e, Exception)]: [KeyboardInterrupt] derives from
    [BaseException] only. *)
Definition is_Exception (e : exn) : bool :=
  match e with
  | KeyboardInterrupt => false
  | _ => true
  end.

Definition is_TypeError (e : exn) : bool :=
  match e with
  | TypeError _ => true
  | _ => false
  end.

(** The classes of error that writing a file can raise: the file system
    refuses ([OSError]), or the content cannot be written as it is
    ([TypeError], [ValueError]; for JSON, a value that cannot be
    serialized). *)
Inductive ErrorClass := ClassOSError | ClassTypeError | ClassValueError.

Definition error_of (c : ErrorClass) (msg : string) : exn :=
  match c with
  | ClassOSError => OSError msg
  | ClassTypeError => TypeError msg
  | ClassValueError => ValueError msg
  end.

(** How a write fails: with what error, and before or after the file has
    been opened.  Opening a file for writing empties it, so a write that
    fails after that leaves the file cut short. *)
Record WriteFault := {
  fault_class : ErrorClass;
  fault_msg : string;
  fault_truncates : bool
}.

Definition fault_exn (f : WriteFault) : exn := error_of (fault_class f) (fault_msg f).

(** The file system refuses to open the file: nothing is touched. *)
Definition refused (msg : string) : WriteFault :=
  {| fault_class := ClassOSError; fault_msg := msg; fault_truncates := false |}.

(** The write breaks off after the file has been opened. *)
Definition broken_off (c : ErrorClass) (msg : string) : WriteFault :=
  {| fault_class := c; fault_msg := msg; fault_truncates := true |}.

Inductive LogLevel := INFO | ERROR.

(** What a run leaves behind that an observer can see, oldest first. *)
Inductive Event :=
| EvLog (lvl : LogLevel) (msg : string)
| EvMakedirs (d : string)
| EvWrite (path : string) (c : FileContent).

(** [files] and [dirs] are the file system; [write_error] says for which
    paths writing the file fails, and how; [makedirs_error] says for which
    directories creating them raises, with the message of the error;
    [trace] is the history of the log records, the directories created and
    the files written to their end. *)
Record World := {
  files : gmap string FileContent;
  dirs : gset string;
  write_error : gmap string WriteFault;
  makedirs_error : gmap string string;
  trace : list Event
}.

Definition set_files (f : gmap string FileContent) (w : World) : World :=
  {| files := f; dirs := dirs w; write_error := write_error w;
     makedirs_error := makedirs_error w; trace := trace w |}.

Definition set_dirs (d : gset string) (w : World) : World :=
  {| files := files w; dirs := d; write_error := write_error w;
     makedirs_error := makedirs_error w; trace := trace w |}.

Definition set_trace (t : list Event) (w : World) : World :=
  {| files := files w; dirs := dirs w; write_error := write_error w;
     makedirs_error := makedirs_error w; trace := t |}.

Definition add_event (ev : Event) (w : World) : World :=
  set_trace (trace w ++ [ev]) w.

Inductive result (A : Type) :=
| Ok (a : A)
| Raise (e : exn).
Arguments Ok {A} a.
Arguments Raise {A} e.

(** Computations that read and change the world and may raise. *)
Definition M (A : Type) : Type := World -> result A * World.

Definition ret {A} (a : A) : M A := fun w => (Ok a, w).

Definition bind {A B} (m : M A) (k : A -> M B) : M B :=
  fun w =>
    match m w with
    | (Ok a, w') => k a w'
    | (Raise e, w') => (Raise e, w')
    end.

Definition raise {A} (e : exn) : M A := fun w => (Raise e, w).

Notation "x <- m ;; k" := (bind m (fun x => k))
  (at level 100, m at next level, right associativity).
Notation "m ;;; k" := (bind m (fun _ => k))
  (at level 100, right associativity).

(** [try: body / except C as e: handler(e) / else: orelse]: only exceptions
    of class [C] raised by [body] are handled; [orelse] runs after a [body]
    that did not raise, outside the protection of the handler. *)
Definition try_except_else {A B} (body : M A) (C : exn -> bool)
    (handler : exn -> M B) (orelse : A -> M B) : M B :=
  fun w =>
    match body w with
    | (Ok a, w') => orelse a w'
    | (Raise e, w') => if C e then handler e w' else (Raise e, w')
    end.

(** [for x in xs: body(x)] *)
Fixpoint for_each {A} (xs : list A) (body : A -> M unit) : M unit :=
  match xs with
  | [] => ret tt
  | x :: xs' => body x ;;; for_each xs' body
  end.

Definition emit (ev : Event) : M unit := fun w => (Ok tt, add_event ev w).

Definition log_info (msg : string) : M unit := emit (EvLog INFO msg).
Definition log_error (msg : string) : M unit := emit (EvLog ERROR msg).

(** [os.path.exists(p)] *)
Definition os_path_exists (p : string) : M bool :=
  fun w => (Ok (bool_decide (p ∈ dirs w) || bool_decide (is_Some (files w !! p))), w).

(** [os.makedirs(d, exist_ok=True)]: raises where the world says so;
    otherwise [d] and all its ancestors exist afterwards. *)
Definition os_makedirs (d : string) : M unit :=
  fun w =>
    match makedirs_error w !! d with
    | Some msg => (Raise (OSError msg), w)
    | None =>
        (Ok tt, add_event (EvMakedirs d)
                  (set_dirs (dirs w ∪ list_to_set (os_path.ancestors d)) w))
    end.

(** [with open(path, "w") as f: f.write(c)]: where the world lets it, the
    content of the file is replaced.  Where it does not, the error of the
    fault is raised, and the file is left untouched when it could not be
    opened, cut short when the write broke off after that. *)
Definition open_write (path : string) (c : FileContent) : M unit :=
  fun w =>
    match write_error w !! path with
    | Some f =>
        (Raise (fault_exn f),
         if fault_truncates f then set_files (<[path := Partial]> (files w)) w else w)
    | None => (Ok tt, add_event (EvWrite path c) (set_files (<[path := c]> (files w)) w))
    end.

(** Modelled from the spec: reading the needs file is part of
    [NeedsList.load_json] (sphinx_needs/needsfile.py, absent here).  Of the
    ways the file can fail to be a needs document the spec tolerates one,
    the "missing prior state file", "treated as empty"; a directory at the
    path makes [open] raise, and a file that is not JSON makes [json.load]
    raise. *)
Definition read_json (path : string) : M (option NeedsDoc) :=
  fun w =>
    if bool_decide (path ∈ dirs w)
    then (Raise (OSError "[Errno 21] Is a directory"), w)
    else match files w !! path with
         | None => (Ok None, w)
         | Some (JsonDoc d) => (Ok (Some d), w)
         | Some (Text _) | Some Partial => (Raise (ValueError "Expecting value"), w)
         end.

(** ** [NeedsList], the list serializer *)

(** Modelled from the spec: the class [NeedsList] of
    sphinx_needs/needsfile.py is not under src/; [builder.py] only calls
    it.  The spec describes it as the component that "accumulates need
    records tagged by a version label into an in-memory structure mirroring
    a previously-written JSON file (if any), supports incremental
    merge/overwrite, and writes the result to disk as JSON". *)
Record NeedsList := {
  nl_outdir : string;
  nl_confdir : string;
  needs_list : NeedsDoc
}.

Module NeedsListOps.

(** Modelled from the spec: [NeedsList(config, outdir, srcdir)] starts
    from the "empty base state". *)
Definition init (c : Config) (outdir srcdir : string) : NeedsList :=
  {| nl_outdir := outdir; nl_confdir := srcdir; needs_list := ∅ |}.

(** Modelled from the spec: [load_json(file)], "load it as the base state
    to merge into"; a "missing prior state file" is "tolerated, treated as
    empty".  The path is taken relative to the source directory the
    object was created with. *)
Definition load_json (file : string) (nl : NeedsList) : M NeedsList :=
  loaded <- read_json (os_path.join (nl_confdir nl) file) ;;
  ret match loaded with
      | Some d => {| nl_outdir := nl_outdir nl; nl_confdir := nl_confdir nl;
                     needs_list := d |}
      | None => nl
      end.

(** Modelled from the spec: [wipe_version(version)], "remove any existing
    entries for the current version from the base state". *)
Definition wipe_version (version : string) (nl : NeedsList) : NeedsList :=
  {| nl_outdir := nl_outdir nl; nl_confdir := nl_confdir nl;
     needs_list := delete version (needs_list nl) |}.

Definition entry_of (version : string) (d : NeedsDoc) : VersionEntry :=
  default {| ve_needs := []; ve_filters := [] |} (d !! version).

(** Modelled from the spec: [add_need(version, need)], "append each
    surviving need to the current version's entry". *)
Definition add_need (version : string) (need : NeedsInfoType) (nl : NeedsList) : NeedsList :=
  let e := entry_of version (needs_list nl) in
  {| nl_outdir := nl_outdir nl; nl_confdir := nl_confdir nl;
     needs_list := <[version := {| ve_needs := ve_needs e ++ [need];
                                   ve_filters := ve_filters e |}]> (needs_list nl) |}.

(** Modelled from the spec: [add_filter(version, need_filter)], "attach
    that filter's definition to the current version's entry as well". *)
Definition add_filter (version : string) (f : NeedsFilterType) (nl : NeedsList) : NeedsList :=
  let e := entry_of version (needs_list nl) in
  {| nl_outdir := nl_outdir nl; nl_confdir := nl_confdir nl;
     needs_list := <[version := {| ve_needs := ve_needs e;
                                   ve_filters := ve_filters e ++ [f] |}]> (needs_list nl) |}.

(** The values that [write_json()] takes for the arguments the caller
    leaves out: "a fixed default filename in the output directory". *)
Definition default_needs_file : string := "needs.json".
Definition default_needs_path : string := "".

(** Modelled from the spec: [write_json(needs_file, needs_path)], "persist
    the merged state to disk as JSON", at [<outdir>/needs.json] or at
    [<needs_path>/<needs_file>].  The write can fail as every write can: by
    an "I/O error" or a "serialization error", and, writes being "not
    atomic", it can leave "a partially written file". *)
Definition write_json (nl : NeedsList) (needs_file needs_path : string) : M unit :=
  let needs_dir := if PyStr.truthy needs_path then needs_path else nl_outdir nl in
  open_write (os_path.join needs_dir needs_file) (JsonDoc (needs_list nl)).

End NeedsListOps.

(** ** The classes of [builder.py] *)

(** [Builder] is the host's base class and [HostBuilder] any other builder
    of the host (html, latex, ...); the other four are defined here. *)
Inductive BuilderClass :=
| Builder
| HostBuilder (name : string)
| NeedsBuilderBase
| NeedsBuilder
| NeedumlsBuilder
| NeedsIdBuilder.

#[global] Instance BuilderClass_eq_dec : EqDecision BuilderClass.
Proof. solve_decision. Defined.

(** The class named in the [class C(B):] header. *)
Definition base_of (c : BuilderClass) : option BuilderClass :=
  match c with
  | Builder => None
  | HostBuilder _ => Some Builder
  | NeedsBuilderBase => Some Builder
  | NeedsBuilder | NeedumlsBuilder | NeedsIdBuilder => Some NeedsBuilderBase
  end.

Fixpoint mro_upto (depth : nat) (c : BuilderClass) : list BuilderClass :=
  match depth with
  | O => []
  | S depth' =>
      c :: match base_of c with
           | Some b => mro_upto depth' b
           | None => []
           end
  end.

(** Method resolution order: the class, then its ancestors. *)
Definition mro (c : BuilderClass) : list BuilderClass := mro_upto 3 c.

(** Class attributes, each at the class whose body assigns it. *)
Definition own_skip_write_phase (c : BuilderClass) : option bool :=
  match c with
  | NeedsBuilderBase => Some true
  | NeedsBuilder => Some false
  | _ => None
  end.

Definition own_name (c : BuilderClass) : option string :=
  match c with
  | NeedsBuilder => Some "needs"
  | NeedumlsBuilder => Some "needumls"
  | NeedsIdBuilder => Some "needs_id"
  | HostBuilder n => Some n
  | _ => None
  end.

(** Attribute lookup along the method resolution order. *)
Definition class_getattr {A} (own : BuilderClass -> option A) (c : BuilderClass) : option A :=
  head (omap own (mro c)).

Definition skip_write_phase (c : BuilderClass) : option bool :=
  class_getattr own_skip_write_phase c.

(** A builder object.  [env] is unset between a construction without
    environment and [set_environment]. *)
Record BuilderObj := {
  cls : BuilderClass;
  b_config : Config;
  env : option BuildEnvironment;
  outdir : string;
  srcdir : string
}.

Definition isinstance (b : BuilderObj) (c : BuilderClass) : bool :=
  bool_decide (c ∈ mro (cls b)).

(** The host application after the primary build. *)
Record Sphinx := {
  app_config : Config;
  app_env : BuildEnvironment;
  app_builder : BuilderObj;
  app_outdir : string;
  app_srcdir : string;
  version_info0 : nat
}.

(** [C(app)] and [C(app, env)]: hosts before major version 5 know only the
    first signature and raise [TypeError] for the second. *)
Definition Builder_init (c : BuilderClass) (app : Sphinx)
    (e : option BuildEnvironment) : M BuilderObj :=
  match e with
  | Some _ =>
      if (5 <=? version_info0 app)%nat
      then ret {| cls := c; b_config := app_config app; env := e;
                  outdir := app_outdir app; srcdir := app_srcdir app |}
      else raise (TypeError "__init__() takes 2 positional arguments but 3 were given")
  | None =>
      ret {| cls := c; b_config := app_config app; env := None;
             outdir := app_outdir app; srcdir := app_srcdir app |}
  end.

Definition set_environment (b : BuilderObj) (e : BuildEnvironment) : BuilderObj :=
  {| cls := cls b; b_config := b_config b; env := Some e;
     outdir := outdir b; srcdir := srcdir b |}.

Definition set_outdir (b : BuilderObj) (d : string) : BuilderObj :=
  {| cls := cls b; b_config := b_config b; env := env b;
     outdir := d; srcdir := srcdir b |}.

(** [self.env], for a builder that may not be bound yet. *)
Definition self_env (self : BuilderObj) : M BuildEnvironment :=
  match env self with
  | Some e => ret e
  | None => raise (AttributeError "'NoneType' object has no attribute 'config'")
  end.

(** The property [needs_config]: [NeedsSphinxConfig(self.config)]. *)
Definition needs_config (self : BuilderObj) : NeedsSphinxConfig :=
  needs_options (b_config self).

(** ** The builders *)

Section Builders.

(** The filter evaluator [sphinx_needs.filter_common.filter_needs] is an
    external collaborator: "a function taking (configuration, collection
    of needs, filter expression) and returning the filtered subset". *)
Variable filter_needs :
  NeedsSphinxConfig -> list NeedsInfoType -> string -> list NeedsInfoType.

(** The host's [Builder.write], the full per-document write phase. *)
Variable Builder_write :
  BuilderObj -> option (list string) -> list string -> string -> M unit.

(** *** [NeedsBuilderBase] *)

Definition get_outdated_docs (self : BuilderObj) : M (gset string) :=
  e <- self_env self ;;
  ret (found_docs e).

Definition get_target_uri (self : BuilderObj) (_docname : string)
    (_typ : option string) : string := "".

Definition write (self : BuilderObj) (build_docnames : option (list string))
    (updated_docnames : list string) (method : string) : M unit :=
  match skip_write_phase (cls self) with
  | Some true => ret tt
  | Some false => Builder_write self build_docnames updated_docnames method
  | None => raise (AttributeError "object has no attribute 'skip_write_phase'")
  end.

(** Only needed for subclasses that run the write phase. *)
Definition prepare_writing (self : BuilderObj) (_docnames : gset string) : M unit := ret tt.
Definition write_doc (self : BuilderObj) (_docname : string) : M unit := ret tt.
Definition write_doc_serialized (self : BuilderObj) (_docname : string) : M unit := ret tt.
Definition cleanup (self : BuilderObj) : M unit := ret tt.

Definition NeedsBuilderBase_finish (self : BuilderObj) : M unit :=
  raise (NotImplementedError "NeedsBuilderBase.finish() must be implemented in subclass").

(** *** [NeedsBuilder] *)

Definition NeedsBuilder_finish (self : BuilderObj) : M unit :=
  env <- self_env self ;;
  let filters := get_or_create_filters env in
  let version := getattr_version (config env) in
  let needs_list := NeedsListOps.init (config env) (outdir self) (srcdir self) in
  needs_list <-
    (if PyStr.truthy (file (needs_config self))
     then
       let needs_file := file (needs_config self) in
       NeedsListOps.load_json needs_file needs_list
     else
       let needs_json := os_path.join (srcdir self) "needs.json" in
       found <- os_path_exists needs_json ;;
       (if found
        then log_info "needs.json found, but will not be used because needs_file not configured."
        else ret tt) ;;;
       ret needs_list) ;;
  let needs_list := NeedsListOps.wipe_version version needs_list in
  let filtered_needs :=
    filter_needs (needs_config self) (values (get_or_create_needs env))
      (builder_filter (needs_config self)) in
  let needs_list :=
    fold_left (fun nl need => NeedsListOps.add_need version need nl)
      filtered_needs needs_list in
  let needs_list :=
    fold_left (fun nl need_filter =>
                 if export_id need_filter
                 then NeedsListOps.add_filter version need_filter nl
                 else nl)
      (values filters) needs_list in
  try_except_else
    (NeedsListOps.write_json needs_list
       NeedsListOps.default_needs_file NeedsListOps.default_needs_path)
    is_Exception
    (fun e => log_error ("Error during writing json file: " +:+ exn_str e))
    (fun _ => log_info "Needs successfully exported").

(** *** [NeedumlsBuilder] *)

(** The body of the loop of [NeedumlsBuilder.finish]. *)
Definition needuml_body (self : BuilderObj) (needuml : NeedsUmlType) : M unit :=
  if save_is_set needuml
  then
    let puml_content := content_calculated needuml in
    let save_path := os_path.join (outdir self) (save_path_of needuml) in
    let save_dir := os_path.dirname save_path in
    found <- os_path_exists save_dir ;;
    (if negb found then os_makedirs save_dir else ret tt) ;;;
    log_info ("Storing needuml data to file " +:+ save_path +:+ ".") ;;;
    open_write save_path (Text puml_content)
  else ret tt.

Definition NeedumlsBuilder_finish (self : BuilderObj) : M unit :=
  env <- self_env self ;;
  let needumls := values (get_or_create_umls env) in
  for_each needumls (needuml_body self).

(** *** [NeedsIdBuilder] *)

(** The body of the loop of [NeedsIdBuilder.finish]. *)
Definition need_id_body (self : BuilderObj) (env : BuildEnvironment)
    (version needs_dir : string) (need : NeedsInfoType) : M unit :=
  let needs_list := NeedsListOps.init (config env) (outdir self) (srcdir self) in
  let needs_list := NeedsListOps.wipe_version version needs_list in
  let needs_list := NeedsListOps.add_need version need needs_list in
  let id := need_id need in
  try_except_else
    (let file_name := id +:+ ".json" in
     NeedsListOps.write_json needs_list file_name needs_dir)
    is_Exception
    (fun e => log_error ("Needs-ID Builder " +:+ id +:+ " error: " +:+ exn_str e))
    ret.

Definition NeedsIdBuilder_finish (self : BuilderObj) : M unit :=
  env <- self_env self ;;
  let needs := values (get_or_create_needs env) in
  let version := getattr_version (config env) in
  let filtered_needs :=
    filter_needs (needs_config self) needs (builder_filter (needs_config self)) in
  let needs_build_json_per_id_path := build_json_per_id_path (needs_config self) in
  let needs_dir := os_path.join (outdir self) needs_build_json_per_id_path in
  found <- os_path_exists needs_dir ;;
  (if negb found then os_makedirs needs_dir else ret tt) ;;;
  for_each filtered_needs (need_id_body self env version needs_dir) ;;;
  log_info "Needs_id successfully exported".

(** *** Dynamic dispatch of [finish] *)

(** The classes of the host are not part of this module; the [finish]
    of the host's base class does nothing. *)
Definition finish (self : BuilderObj) : M unit :=
  match cls self with
  | NeedsBuilder => NeedsBuilder_finish self
  | NeedumlsBuilder => NeedumlsBuilder_finish self
  | NeedsIdBuilder => NeedsIdBuilder_finish self
  | NeedsBuilderBase => NeedsBuilderBase_finish self
  | Builder | HostBuilder _ => ret tt
  end.

(** ** The post-build hooks *)

Definition build_needs_json (app : Sphinx) (_exception : option exn) : M unit :=
  let env := app_env app in
  if negb (build_json (needs_options (config env))) then ret tt
  else if isinstance (app_builder app) NeedsBuilder then ret tt
  else
    needs_builder <-
      try_except_else (Builder_init NeedsBuilder app (Some env)) is_TypeError
        (fun _ =>
           needs_builder <- Builder_init NeedsBuilder app None ;;
           ret (set_environment needs_builder env))
        ret ;;
    finish needs_builder.

Definition build_needumls_pumls (app : Sphinx) (_exception : option exn) : M unit :=
  let env := app_env app in
  let config := needs_options (config env) in
  if negb (PyStr.truthy (build_needumls config)) then ret tt
  else if isinstance (app_builder app) NeedumlsBuilder then ret tt
  else
    needs_builder <-
      (if (5 <=? version_info0 app)%nat
       then
         needs_builder <- Builder_init NeedumlsBuilder app (Some env) ;;
         ret (set_outdir needs_builder
                (os_path.join (outdir needs_builder) (build_needumls config)))
       else
         needs_builder <- Builder_init NeedumlsBuilder app None ;;
         let needs_builder :=
           set_outdir needs_builder
             (os_path.join (outdir needs_builder) (build_needumls config)) in
         ret (set_environment needs_builder env)) ;;
    finish needs_builder.

Definition build_needs_id_json (app : Sphinx) (_exception : option exn) : M unit :=
  let env := app_env app in
  if negb (build_json_per_id (needs_options (config env))) then ret tt
  else if isinstance (app_builder app) NeedsIdBuilder then ret tt
  else
    needs_id_builder <-
      try_except_else (Builder_init NeedsIdBuilder app (Some env)) is_TypeError
        (fun _ =>
           needs_id_builder <- Builder_init NeedsIdBuilder app None ;;
           ret (set_environment needs_id_builder env))
        ret ;;
    finish needs_id_builder.

End Builders.

(** ** Vocabulary of the statements *)

(** The world a computation leaves, and how it ended. *)
Definition exec {A} (m : M A) (w : World) : World := (m w).2.
Definition outcome {A} (m : M A) (w : World) : result A := (m w).1.

(** The needs document stored at [path], when there is one. *)
Definition file_doc (w : World) (path : string) : option NeedsDoc :=
  match files w !! path with
  | Some (JsonDoc d) => Some d
  | _ => None
  end.

(** The entry a file holds for one version label. *)
Definition file_version_entry (w : World) (path version : string) : option VersionEntry :=
  d ← file_doc w path; d !! version.

(** The need list of a document for one version label. *)
Definition version_needs (version : string) (d : NeedsDoc) : list NeedsInfoType :=
  ve_needs (NeedsListOps.entry_of version d).

(** [os.path.exists(p)] as a property of a world. *)
Definition path_exists (w : World) (p : string) : Prop :=
  p ∈ dirs w ∨ is_Some (files w !! p).

(** The files written and the records logged along a trace, in order. *)
Definition writes_of (t : list Event) : list (string * FileContent) :=
  omap (fun ev => match ev with EvWrite p c => Some (p, c) | _ => None end) t.

Definition logs_of (t : list Event) : list (LogLevel * string) :=
  omap (fun ev => match ev with EvLog l m => Some (l, m) | _ => None end) t.

(** Where [NeedsBuilder.finish] writes. *)
Definition needs_json_path (self : BuilderObj) : string :=
  os_path.join (outdir self) NeedsListOps.default_needs_file.

(** Where [NeedsIdBuilder.finish] writes the file of one need. *)
Definition needs_id_dir (self : BuilderObj) : string :=
  os_path.join (outdir self) (build_json_per_id_path (needs_config self)).

Definition need_json_path (self : BuilderObj) (need : NeedsInfoType) : string :=
  os_path.join (needs_id_dir self) (need_id need +:+ ".json").

(** A fresh state holding one need under one version. *)
Definition single_need_doc (version : string) (need : NeedsInfoType) : NeedsDoc :=
  {[ version := {| ve_needs := [need]; ve_filters := [] |} ]}.

(** What one iteration of the loop of [NeedsIdBuilder.finish] leaves in the
    trace: the file written, or the error logged for that need. *)
Definition need_id_event (self : BuilderObj) (version : string) (w : World)
    (need : NeedsInfoType) : Event :=
  match write_error w !! need_json_path self need with
  | Some f =>
      EvLog ERROR
        ("Needs-ID Builder " +:+ need_id need +:+ " error: " +:+ exn_str (fault_exn f))
  | None =>
      EvWrite (need_json_path self need) (JsonDoc (single_need_doc version need))
  end.

(** The world after one iteration of that loop. *)
Definition need_id_step (self : BuilderObj) (version : string)
    (need : NeedsInfoType) (w : World) : World :=
  match write_error w !! need_json_path self need with
  | Some f =>
      add_event
        (EvLog ERROR
           ("Needs-ID Builder " +:+ need_id need +:+ " error: " +:+ exn_str (fault_exn f)))
        (if fault_truncates f
         then set_files (<[need_json_path self need := Partial]> (files w)) w
         else w)
  | None =>
      add_event
        (EvWrite (need_json_path self need) (JsonDoc (single_need_doc version need)))
        (set_files (<[need_json_path self need := JsonDoc (single_need_doc version need)]>
                      (files w)) w)
  end.

(** The world after the whole loop. *)
Definition need_id_steps (self : BuilderObj) (version : string)
    (l : list NeedsInfoType) (w : World) : World :=
  fold_left (fun w need => need_id_step self version need w) l w.

(** The world once the directory [d] is there: created unless it exists. *)
Definition ensure_dir (d : string) (w : World) : World :=
  if bool_decide (d ∈ dirs w) || bool_decide (is_Some (files w !! d)) then w
  else add_event (EvMakedirs d) (set_dirs (dirs w ∪ list_to_set (os_path.ancestors d)) w).

(** The directory [d] is there or can be created. *)
Definition can_ensure_dir (d : string) (w : World) : Prop :=
  path_exists w d \/ makedirs_error w !! d = None.

(** Where [NeedumlsBuilder.finish] writes one diagram. *)
Definition needuml_path (self : BuilderObj) (u : NeedsUmlType) : string :=
  os_path.join (outdir self) (save_path_of u).

(** The message logged before a diagram is stored. *)
Definition needuml_message (self : BuilderObj) (u : NeedsUmlType) : string :=
  "Storing needuml data to file " +:+ needuml_path self u +:+ ".".

(** The world after one iteration of the loop of [NeedumlsBuilder.finish]
    that runs to its end. *)
Definition needuml_step (self : BuilderObj) (u : NeedsUmlType) (w : World) : World :=
  if save_is_set u
  then
    let w1 := add_event (EvLog INFO (needuml_message self u))
                (ensure_dir (os_path.dirname (needuml_path self u)) w) in
    add_event (EvWrite (needuml_path self u) (Text (content_calculated u)))
      (set_files (<[needuml_path self u := Text (content_calculated u)]> (files w1)) w1)
  else w.

Definition needuml_steps (self : BuilderObj) (l : list NeedsUmlType) (w : World) : World :=
  fold_left (fun w u => needuml_step self u w) l w.

(** The world lets the diagram [u] be stored: its directory is there or
    can be created, and its file can be written. *)
Definition needuml_ready (self : BuilderObj) (w : World) (u : NeedsUmlType) : Prop :=
  save_is_set u = true ->
  can_ensure_dir (os_path.dirname (needuml_path self u)) w
  /\ write_error w !! needuml_path self u = None.

(** [w] comes after [w0]: the same failures, and nothing has disappeared. *)
Definition extends (w0 w : World) : Prop :=
  write_error w = write_error w0
  /\ makedirs_error w = makedirs_error w0
  /\ forall p, path_exists w0 p -> path_exists w p.

(** The builder a hook creates for the application. *)
Definition secondary_builder (c : BuilderClass) (app : Sphinx) : BuilderObj :=
  {| cls := c; b_config := app_config app; env := Some (app_env app);
     outdir := app_outdir app; srcdir := app_srcdir app |}.

(** The two loops of [NeedsBuilder.finish] over the needs list. *)
Definition add_needs (version : string) (l : list NeedsInfoType) (nl : NeedsList) : NeedsList :=
  fold_left (fun nl need => NeedsListOps.add_need version need nl) l nl.

Definition add_filters (version : string) (l : list NeedsFilterType) (nl : NeedsList) : NeedsList :=
  fold_left (fun nl need_filter =>
               if export_id need_filter
               then NeedsListOps.add_filter version need_filter nl
               else nl)
    l nl.

(** The base state [NeedsBuilder.finish] starts from: the configured
    needs file when there is one to load, the empty state otherwise. *)
Definition loaded_needs_list (self : BuilderObj) (e : BuildEnvironment) (w : World) : NeedsList :=
  let fresh := NeedsListOps.init (config e) (outdir self) (srcdir self) in
  if PyStr.truthy (file (needs_config self))
  then match file_doc w (os_path.join (srcdir self) (file (needs_config self))) with
       | Some d => {| nl_outdir := outdir self; nl_confdir := srcdir self; needs_list := d |}
       | None => fresh
       end
  else fresh.

(** The needs file at [path] can be read: no directory is in its place,
    and it is missing or holds a needs document. *)
Definition needs_file_readable (w : World) (path : string) : bool :=
  negb (bool_decide (path ∈ dirs w))
  && match files w !! path with
     | None | Some (JsonDoc _) => true
     | Some (Text _) | Some Partial => false
     end.

(** The first step of [NeedsBuilder.finish], getting the base state,
    returns: no needs file is configured, or the one configured can be
    read. *)
Definition load_returns (self : BuilderObj) (w : World) : bool :=
  if PyStr.truthy (file (needs_config self))
  then needs_file_readable w (os_path.join (srcdir self) (file (needs_config self)))
  else true.

(** What a failed write leaves of the files. *)
Definition files_after_fault (f : WriteFault) (path : string) (w : World) : World :=
  if fault_truncates f then set_files (<[path := Partial]> (files w)) w else w.

(** The trace once the base state is there: a note when an unused
    [needs.json] lies in the source directory. *)
Definition trace_after_load (self : BuilderObj) (w : World) : list Event :=
  if PyStr.truthy (file (needs_config self)) then trace w
  else if bool_decide (os_path.join (srcdir self) "needs.json" ∈ dirs w)
          || bool_decide (is_Some (files w !! os_path.join (srcdir self) "needs.json"))
       then trace w ++ [EvLog INFO "needs.json found, but will not be used because needs_file not configured."]
       else trace w.

Definition world_after_load (self : BuilderObj) (w : World) : World :=
  set_trace (trace_after_load self w) w.

(** The state [NeedsBuilder.finish] hands to [write_json], from a base. *)
Definition exported_needs_list
    (filter_needs : NeedsSphinxConfig -> list NeedsInfoType -> string -> list NeedsInfoType)
    (self : BuilderObj) (e : BuildEnvironment) (base : NeedsList) : NeedsList :=
  let version := getattr_version (config e) in
  add_filters version (values (get_or_create_filters e))
    (add_needs version
       (filter_needs (needs_config self) (values (get_or_create_needs e))
          (builder_filter (needs_config self)))
       (NeedsListOps.wipe_version version base)).

(** The contract of the filter evaluator: it returns needs it was given. *)
Definition returns_subset
    (filter_needs : NeedsSphinxConfig -> list NeedsInfoType -> string -> list NeedsInfoType) : Prop :=
  forall cfg needs f n, n ∈ filter_needs cfg needs f -> n ∈ needs.

(** The note [NeedsBuilder.finish] logs about a needs file it does not
    use, and its messages about the write. *)
Definition unused_needs_json_note : string :=
  "needs.json found, but will not be used because needs_file not configured.".

Definition export_success_note : string := "Needs successfully exported".


(** The file of a need can be written. *)
Definition need_write_permitted (self : BuilderObj) (w : World) (need : NeedsInfoType) : bool :=
  bool_decide (write_error w !! need_json_path self need = None).

(** The error record of a need whose file cannot be written. *)
Definition need_error_record (self : BuilderObj) (w : World) (need : NeedsInfoType)
    : option (LogLevel * string) :=
  match write_error w !! need_json_path self need with
  | Some f =>
      Some (ERROR,
            "Needs-ID Builder " +:+ need_id need +:+ " error: " +:+ exn_str (fault_exn f))
  | None => None
  end.

(** ** A small project to run the builders on *)

Module Demo.

Definition R1 : NeedsInfoType := {| need_id := "R1"; need_fields := [("title", "A")] |}.
Definition R2 : NeedsInfoType := {| need_id := "R2"; need_fields := [("title", "B")] |}.
Definition R0 : NeedsInfoType := {| need_id := "R0"; need_fields := [("title", "old")] |}.

Definition F1 : NeedsFilterType := {| export_id := true; filter_fields := [("filter", "id == 'R1'")] |}.
Definition F2 : NeedsFilterType := {| export_id := false; filter_fields := [] |}.

Definition U1 : NeedsUmlType := {| save := Some "sub/dir/out.puml"; content_calculated := "@startuml" |}.
Definition U2 : NeedsUmlType := {| save := None; content_calculated := "@enduml" |}.
Definition U3 : NeedsUmlType := {| save := Some "locked.puml"; content_calculated := "@startuml" |}.

(** An evaluator that understands nothing but a need id: the empty
    expression keeps every need. *)
Definition filter_needs (cfg : NeedsSphinxConfig) (needs : list NeedsInfoType)
    (f : string) : list NeedsInfoType :=
  if PyStr.truthy f
  then List.filter (fun n => String.eqb (need_id n) f) needs
  else needs.

Definition Builder_write (self : BuilderObj) (build_docnames : option (list string))
    (updated_docnames : list string) (method : string) : M unit :=
  log_info "writing output... ".

Definition options : NeedsSphinxConfig :=
  {| file := "needs.json"; build_json := true; build_needumls := "pumls";
     build_json_per_id := true; build_json_per_id_path := "needs_id";
     builder_filter := "" |}.

Definition conf : Config := {| version := Some "1.0"; needs_options := options |}.

Definition environment : BuildEnvironment :=
  {| config := conf;
     found_docs := {[ "index" ]};
     needs_all_needs := [("R1", R1); ("R2", R2)];
     needs_all_filters := [("f1", F1); ("f2", F2)];
     needs_all_umls := [("u1", U1); ("u2", U2)] |}.

Definition builder (c : BuilderClass) : BuilderObj :=
  {| cls := c; b_config := conf; env := Some environment;
     outdir := "_build"; srcdir := "docs" |}.

(** A prior needs file with a stale need under the current version and
    another version beside it. *)
Definition old_doc : NeedsDoc :=
  {[ "1.0" := {| ve_needs := [R0; R1]; ve_filters := [] |};
     "0.9" := {| ve_needs := [R0]; ve_filters := [] |} ]}.

Definition empty_world : World :=
  {| files := ∅; dirs := {[ "_build"; "docs" ]}; write_error := ∅;
     makedirs_error := ∅; trace := [] |}.

Definition world : World :=
  {| files := {[ "docs/needs.json" := JsonDoc old_doc ]};
     dirs := {[ "_build"; "docs" ]};
     write_error := {[ "_build/needs_id/R1.json" := refused "Permission denied" ]};
     makedirs_error := ∅;
     trace := [] |}.

(** A project whose first diagram cannot be stored. *)
Definition locked_environment : BuildEnvironment :=
  {| config := conf;
     found_docs := {[ "index" ]};
     needs_all_needs := [];
     needs_all_filters := [];
     needs_all_umls := [("u3", U3); ("u1", U1)] |}.

Definition locked_builder : BuilderObj :=
  {| cls := NeedumlsBuilder; b_config := conf; env := Some locked_environment;
     outdir := "_build"; srcdir := "docs" |}.

Definition locked_world : World :=
  {| files := ∅; dirs := {[ "_build"; "docs" ]};
     write_error := {[ "_build/locked.puml" := refused "Permission denied" ]};
     makedirs_error := ∅; trace := [] |}.

Definition html : BuilderObj :=
  {| cls := HostBuilder "html"; b_config := conf; env := Some environment;
     outdir := "_build"; srcdir := "docs" |}.

Definition app (primary : BuilderObj) (major : nat) : Sphinx :=
  {| app_config := conf; app_env := environment; app_builder := primary;
     app_outdir := "_build"; app_srcdir := "docs"; version_info0 := major |}.

(** A project that exports into the needs file it loads, before and
    after the need [R2] is removed from the documentation. *)
Definition in_place (e : BuildEnvironment) : BuilderObj :=
  {| cls := NeedsBuilder; b_config := conf; env := Some e;
     outdir := "docs"; srcdir := "docs" |}.

Definition environment_without_R2 : BuildEnvironment :=
  {| config := conf;
     found_docs := {[ "index" ]};
     needs_all_needs := [("R1", R1)];
     needs_all_filters := [];
     needs_all_umls := [] |}.

(** The same project with every export switched off. *)
Definition quiet_options : NeedsSphinxConfig :=
  {| file := ""; build_json := false; build_needumls := "";
     build_json_per_id := false; build_json_per_id_path := "needs_id";
     builder_filter := "" |}.

Definition quiet_conf : Config := {| version := Some "1.0"; needs_options := quiet_options |}.

Definition quiet_app : Sphinx :=
  {| app_config := quiet_conf;
     app_env := {| config := quiet_conf; found_docs := {[ "index" ]};
                   needs_all_needs := [("R1", R1); ("R2", R2)];
                   needs_all_filters := [];
                   needs_all_umls := [("u1", U1)] |};
     app_builder := html; app_outdir := "_build"; app_srcdir := "docs";
     version_info0 := 7 |}.

(** A builder of the project without a configured needs file. *)
Definition plain_builder (c : BuilderClass) : BuilderObj :=
  {| cls := c; b_config := quiet_conf; env := Some (app_env quiet_app);
     outdir := "_build"; srcdir := "docs" |}.

(** A builder of a project in which no need and no filter is left. *)
Definition emptied_builder : BuilderObj :=
  {| cls := NeedsBuilder; b_config := conf; env := Some locked_environment;
     outdir := "_build"; srcdir := "docs" |}.

(** The world in which the needs cannot be serialized: each JSON write
    breaks off after its file has been opened.  A needs file of an earlier
    build is there. *)
Definition serialization_world : World :=
  {| files := {[ "docs/needs.json" := JsonDoc old_doc;
                 "_build/needs.json" := JsonDoc old_doc ]};
     dirs := {[ "_build"; "docs" ]};
     write_error :=
       {[ "_build/needs.json" :=
            broken_off ClassTypeError "Object of type set is not JSON serializable";
          "_build/needs_id/R1.json" :=
            broken_off ClassTypeError "Object of type set is not JSON serializable" ]};
     makedirs_error := ∅;
     trace := [] |}.

(** The world in which a directory lies where the needs file is
    configured. *)
Definition directory_world : World :=
  {| files := ∅; dirs := {[ "_build"; "docs"; "docs/needs.json" ]};
     write_error := ∅; makedirs_error := ∅; trace := [] |}.

(** The world in which every write is refused. *)
Definition refusing_world : World :=
  {| files := {[ "docs/needs.json" := JsonDoc old_doc ]};
     dirs := {[ "_build"; "docs" ]};
     write_error := {[ "_build/needs.json" := refused "Read-only file system";
                       "_build/needs_id/R1.json" := refused "Read-only file system";
                       "_build/needs_id/R2.json" := refused "Read-only file system" ]};
     makedirs_error := {[ "_build/pumls/sub/dir" := "Read-only file system" ]};
     trace := [] |}.

(** The world in which the directory of the per-need files cannot be
    created. *)
Definition no_mkdir_world : World :=
  {| files := ∅; dirs := {[ "_build"; "docs" ]}; write_error := ∅;
     makedirs_error := {[ "_build/needs_id" := "Permission denied" ]};
     trace := [] |}.

(** Two diagrams stored at the same path, and one with an absolute path. *)
Definition U4 : NeedsUmlType := {| save := Some "sub/dir/out.puml"; content_calculated := "@startuml second" |}.
Definition U5 : NeedsUmlType := {| save := Some "/srv/pumls/abs.puml"; content_calculated := "@startuml abs" |}.

Definition diagrams_environment : BuildEnvironment :=
  {| config := conf;
     found_docs := {[ "index" ]};
     needs_all_needs := [];
     needs_all_filters := [];
     needs_all_umls := [("u1", U1); ("u2", U2); ("u4", U4); ("u5", U5)] |}.

Definition diagrams_builder : BuilderObj :=
  {| cls := NeedumlsBuilder; b_config := conf; env := Some diagrams_environment;
     outdir := "_build"; srcdir := "docs" |}.

End Demo.

Example join_relative : os_path.join "_build/needs" "sub/dir/out.puml" = "_build/needs/sub/dir/out.puml".
Proof. reflexivity. Qed.

Example join_trailing_sep : os_path.join "_build/" "needs.json" = "_build/needs.json".
Proof. reflexivity. Qed.

Example join_absolute : os_path.join "_build" "/tmp/out.puml" = "/tmp/out.puml".
Proof. reflexivity. Qed.

Example dirname_nested : os_path.dirname "_build/sub/dir/out.puml" = "_build/sub/dir".
Proof. reflexivity. Qed.

Example dirname_root : os_path.dirname "/out.puml" = "/".
Proof. reflexivity. Qed.

Example dirname_plain : os_path.dirname "out.puml" = "".
Proof. reflexivity. Qed.

Example ancestors_nested :
  os_path.ancestors "_build/sub/dir" = ["_build/sub/dir"; "_build/sub"; "_build"].
Proof. reflexivity. Qed.

Example ancestors_absolute : os_path.ancestors "/srv/out" = ["/srv/out"; "/srv"; "/"].
Proof. reflexivity. Qed.

Example needs_builder_mro : mro NeedsBuilder = [NeedsBuilder; NeedsBuilderBase; Builder].
Proof. reflexivity. Qed.

Example html_is_no_needs_builder : isinstance Demo.html NeedsBuilder = false.
Proof. reflexivity. Qed.

Example needs_builder_is_base : isinstance (Demo.builder NeedsBuilder) NeedsBuilderBase = true.
Proof. reflexivity. Qed.

Example export_then_remove_R2 :
  let w1 := exec (NeedsBuilder_finish Demo.filter_needs (Demo.in_place Demo.environment))
              Demo.empty_world in
  let w2 := exec (NeedsBuilder_finish Demo.filter_needs
                    (Demo.in_place Demo.environment_without_R2)) w1 in
  (version_needs "1.0" <$> file_doc w1 "docs/needs.json") = Some [Demo.R1; Demo.R2]
  /\ (version_needs "1.0" <$> file_doc w2 "docs/needs.json") = Some [Demo.R1].
Proof. split; vm_compute; reflexivity. Qed.

Example stale_need_is_wiped :
  let w' := exec (NeedsBuilder_finish Demo.filter_needs (Demo.builder NeedsBuilder))
              Demo.world in
  (version_needs "1.0" <$> file_doc Demo.world "docs/needs.json") = Some [Demo.R0; Demo.R1]
  /\ (version_needs "1.0" <$> file_doc w' "_build/needs.json") = Some [Demo.R1; Demo.R2]
  /\ (version_needs "0.9" <$> file_doc w' "_build/needs.json") = Some [Demo.R0].
Proof. repeat split; vm_compute; reflexivity. Qed.

(** A directory where the needs file is configured: [load_json] stands
    before the [try], so its error ends [NeedsBuilder.finish]. *)
Example unreadable_needs_file_ends_finish :
  NeedsBuilder_finish Demo.filter_needs (Demo.builder NeedsBuilder) Demo.directory_world
  = (Raise (OSError "[Errno 21] Is a directory"), Demo.directory_world).
Proof. vm_compute. reflexivity. Qed.

(** A write that breaks off leaves the file it had opened cut short. *)
Example broken_off_write_truncates :
  files (exec (NeedsBuilder_finish Demo.filter_needs (Demo.builder NeedsBuilder))
           Demo.serialization_world) !! "_build/needs.json"
  = Some Partial.
Proof. vm_compute. reflexivity. Qed.

Example base_finish_not_implemented :
  outcome (finish Demo.filter_needs (Demo.builder NeedsBuilderBase)) Demo.world
  = Raise (NotImplementedError "NeedsBuilderBase.finish() must be implemented in subclass").
Proof. reflexivity. Qed.

(** ** The monad *)

Lemma bind_ok {A B} (m : M A) (k : A -> M B) w a w' :
  m w = (Ok a, w') -> bind m k w = k a w'.
Proof. intros H. unfold bind. now rewrite H. Qed.

Lemma bind_raise {A B} (m : M A) (k : A -> M B) w e w' :
  m w = (Raise e, w') -> bind m k w = (Raise e, w').
Proof. intros H. unfold bind. now rewrite H. Qed.

Lemma for_each_app {A} (xs ys : list A) (body : A -> M unit) w :
  for_each (xs ++ ys) body w = (for_each xs body ;;; for_each ys body) w.
Proof.
  revert w. induction xs as [|x xs IH]; intros w; simpl.
  - reflexivity.
  - unfold bind in *. destruct (body x w) as [[[]|e] w1].
    + apply IH.
    + reflexivity.
Qed.

(** Whatever the class of the error of a failing write, it is an
    [Exception]. *)
Lemma fault_exn_is_Exception f : is_Exception (fault_exn f) = true.
Proof. unfold fault_exn. now destruct (fault_class f). Qed.

Lemma exn_str_fault f : exn_str (fault_exn f) = fault_msg f.
Proof. unfold fault_exn. now destruct (fault_class f). Qed.

Lemma writes_of_snoc t ev :
  writes_of (t ++ [ev])
  = (writes_of t ++ match ev with EvWrite p c => [(p, c)] | _ => [] end)%list.
Proof. unfold writes_of. rewrite omap_app. now destruct ev. Qed.

Lemma logs_of_snoc t ev :
  logs_of (t ++ [ev])
  = (logs_of t ++ match ev with EvLog l m => [(l, m)] | _ => [] end)%list.
Proof. unfold logs_of. rewrite omap_app. now destruct ev. Qed.

(** ** The document built by [NeedsList] *)

Section NeedsListFacts.
Import NeedsListOps.
Variable version : string.

Lemma add_needs_cons need l nl :
  add_needs version (need :: l) nl = add_needs version l (add_need version need nl).
Proof. reflexivity. Qed.

Lemma add_filters_cons f l nl :
  add_filters version (f :: l) nl
  = add_filters version l (if export_id f then add_filter version f nl else nl).
Proof. reflexivity. Qed.

(** The loops change the document only, not where it will be written. *)
Lemma nl_outdir_add_needs l nl : nl_outdir (add_needs version l nl) = nl_outdir nl.
Proof.
  revert nl. induction l as [|need l IH]; intros nl; [reflexivity|].
  now rewrite add_needs_cons, IH.
Qed.

Lemma nl_outdir_add_filters l nl : nl_outdir (add_filters version l nl) = nl_outdir nl.
Proof.
  revert nl. induction l as [|f l IH]; intros nl; [reflexivity|].
  rewrite add_filters_cons, IH. now destruct (export_id f).
Qed.

Lemma entry_of_wipe nl :
  entry_of version (needs_list (wipe_version version nl))
  = {| ve_needs := []; ve_filters := [] |}.
Proof. unfold entry_of, wipe_version. simpl. now rewrite lookup_delete_eq. Qed.

Lemma entry_of_add_need need nl :
  entry_of version (needs_list (add_need version need nl))
  = {| ve_needs := ve_needs (entry_of version (needs_list nl)) ++ [need];
       ve_filters := ve_filters (entry_of version (needs_list nl)) |}.
Proof. unfold add_need. simpl. unfold entry_of at 1. now rewrite lookup_insert_eq. Qed.

Lemma entry_of_add_filter f nl :
  entry_of version (needs_list (add_filter version f nl))
  = {| ve_needs := ve_needs (entry_of version (needs_list nl));
       ve_filters := ve_filters (entry_of version (needs_list nl)) ++ [f] |}.
Proof. unfold add_filter. simpl. unfold entry_of at 1. now rewrite lookup_insert_eq. Qed.

Lemma entry_of_add_needs l nl :
  entry_of version (needs_list (add_needs version l nl))
  = {| ve_needs := ve_needs (entry_of version (needs_list nl)) ++ l;
       ve_filters := ve_filters (entry_of version (needs_list nl)) |}.
Proof.
  revert nl. induction l as [|need l IH]; intros nl.
  - simpl. rewrite app_nil_r. now destruct (entry_of version (needs_list nl)).
  - rewrite add_needs_cons, IH, entry_of_add_need. simpl.
    now rewrite <- app_assoc.
Qed.

Lemma entry_of_add_filters l nl :
  entry_of version (needs_list (add_filters version l nl))
  = {| ve_needs := ve_needs (entry_of version (needs_list nl));
       ve_filters := ve_filters (entry_of version (needs_list nl))
                     ++ List.filter export_id l |}.
Proof.
  revert nl. induction l as [|f l IH]; intros nl.
  - simpl. rewrite app_nil_r. now destruct (entry_of version (needs_list nl)).
  - rewrite add_filters_cons, IH. simpl. destruct (export_id f).
    + rewrite entry_of_add_filter. simpl. now rewrite <- app_assoc.
    + reflexivity.
Qed.

(** Other versions are left alone by every operation on [version]. *)
Lemma lookup_wipe_ne v nl :
  v <> version -> needs_list (wipe_version version nl) !! v = needs_list nl !! v.
Proof. intros H. unfold wipe_version. simpl. now rewrite lookup_delete_ne. Qed.

Lemma lookup_add_needs_ne v l nl :
  v <> version -> needs_list (add_needs version l nl) !! v = needs_list nl !! v.
Proof.
  intros H. revert nl. induction l as [|need l IH]; intros nl.
  - reflexivity.
  - rewrite add_needs_cons, IH. unfold add_need. simpl.
    now rewrite lookup_insert_ne.
Qed.

Lemma lookup_add_filters_ne v l nl :
  v <> version -> needs_list (add_filters version l nl) !! v = needs_list nl !! v.
Proof.
  intros H. revert nl. induction l as [|f l IH]; intros nl.
  - reflexivity.
  - rewrite add_filters_cons, IH. destruct (export_id f); [|reflexivity].
    unfold add_filter. simpl. now rewrite lookup_insert_ne.
Qed.

(** What is stored under [version] after adding depends on the state
    before only through what that state stores under [version]. *)
Lemma lookup_add_needs_agree l nl1 nl2 :
  needs_list nl1 !! version = needs_list nl2 !! version ->
  needs_list (add_needs version l nl1) !! version = needs_list (add_needs version l nl2) !! version.
Proof.
  revert nl1 nl2. induction l as [|need l IH]; intros nl1 nl2 H.
  - exact H.
  - rewrite !add_needs_cons. apply IH. unfold add_need, entry_of. simpl.
    now rewrite !lookup_insert_eq, H.
Qed.

Lemma lookup_add_filters_agree l nl1 nl2 :
  needs_list nl1 !! version = needs_list nl2 !! version ->
  needs_list (add_filters version l nl1) !! version = needs_list (add_filters version l nl2) !! version.
Proof.
  revert nl1 nl2. induction l as [|f l IH]; intros nl1 nl2 H.
  - exact H.
  - rewrite !add_filters_cons. apply IH. destruct (export_id f); [|exact H].
    unfold add_filter, entry_of. simpl.
    now rewrite !lookup_insert_eq, H.
Qed.

Lemma lookup_wipe_agree nl1 nl2 :
  needs_list (wipe_version version nl1) !! version
  = needs_list (wipe_version version nl2) !! version.
Proof. unfold wipe_version. simpl. now rewrite !lookup_delete_eq. Qed.

End NeedsListFacts.

(** ** [NeedsBuilder.finish] *)

Section NeedsBuilderFacts.
Variable filter_needs :
  NeedsSphinxConfig -> list NeedsInfoType -> string -> list NeedsInfoType.
Variables (self : BuilderObj) (e : BuildEnvironment).
Hypothesis bound : env self = Some e.

Let version := getattr_version (config e).
Let filtered := filter_needs (needs_config self) (values (get_or_create_needs e))
                  (builder_filter (needs_config self)).

(** Whether the base state can be loaded, and what is loaded, depends on
    the files and directories only. *)
Lemma load_returns_ext w w1 :
  files w1 = files w -> dirs w1 = dirs w -> load_returns self w1 = load_returns self w.
Proof.
  intros Hf Hd. unfold load_returns, needs_file_readable. now rewrite Hf, Hd.
Qed.

Lemma loaded_needs_list_ext w w1 :
  files w1 = files w -> loaded_needs_list self e w1 = loaded_needs_list self e w.
Proof. intros Hf. unfold loaded_needs_list, file_doc. now rewrite Hf. Qed.

(** The run splits into loading the base state and writing the state
    built from it. *)
Lemma NeedsBuilder_finish_eq w :
  load_returns self w = true ->
  NeedsBuilder_finish filter_needs self w
  = try_except_else
      (NeedsListOps.write_json
         (exported_needs_list filter_needs self e (loaded_needs_list self e w))
         NeedsListOps.default_needs_file NeedsListOps.default_needs_path)
      is_Exception
      (fun e => log_error ("Error during writing json file: " +:+ exn_str e))
      (fun _ => log_info "Needs successfully exported")
      (world_after_load self w).
Proof.
  intros Hload. unfold NeedsBuilder_finish, self_env. rewrite bound.
  unfold bind at 1. unfold ret at 1.
  unfold load_returns in Hload.
  unfold loaded_needs_list, world_after_load, trace_after_load.
  destruct (PyStr.truthy (file (needs_config self))) eqn:Hfile.
  - unfold needs_file_readable in Hload.
    apply andb_true_iff in Hload as [Hdir Hcontent]. apply negb_true_iff in Hdir.
    unfold bind, NeedsListOps.load_json, bind, read_json, ret, file_doc. simpl.
    rewrite Hdir. destruct w as [fs ds we me tr]. simpl in *.
    destruct (fs !! os_path.join (srcdir self) (file (needs_config self))) as [[d|t|]|];
      try discriminate Hcontent; reflexivity.
  - unfold bind, os_path_exists, ret, log_info, emit.
    destruct w as [fs ds we me tr]. simpl.
    destruct (bool_decide _ || bool_decide _); reflexivity.
Qed.

(** A needs file that cannot be read: [load_json] stands before the
    [try], its error ends the run, and nothing has been done. *)
Lemma NeedsBuilder_finish_load_fails w :
  load_returns self w = false ->
  exists ex, NeedsBuilder_finish filter_needs self w = (Raise ex, w).
Proof.
  intros Hload. unfold NeedsBuilder_finish, self_env. rewrite bound.
  unfold bind at 1. unfold ret at 1.
  unfold load_returns in Hload.
  destruct (PyStr.truthy (file (needs_config self))) eqn:Hfile; [|discriminate Hload].
  unfold needs_file_readable in Hload.
  unfold bind, NeedsListOps.load_json, bind, read_json, ret. simpl.
  destruct (bool_decide (os_path.join (srcdir self) (file (needs_config self)) ∈ dirs w));
    [eauto|].
  simpl in Hload.
  destruct (files w !! os_path.join (srcdir self) (file (needs_config self)))
    as [[d|t|]|]; try discriminate Hload; eauto.
Qed.

Lemma exported_outdir w :
  nl_outdir (exported_needs_list filter_needs self e (loaded_needs_list self e w))
  = outdir self.
Proof.
  unfold exported_needs_list. rewrite nl_outdir_add_filters, nl_outdir_add_needs.
  unfold loaded_needs_list. simpl.
  destruct (PyStr.truthy _); [|reflexivity].
  now destruct (file_doc _ _).
Qed.

(** A failing write: the error is caught and logged, whatever its class,
    and the file is left as the fault leaves it. *)
Lemma NeedsBuilder_finish_write_fails w f :
  load_returns self w = true ->
  write_error w !! needs_json_path self = Some f ->
  NeedsBuilder_finish filter_needs self w
  = (Ok tt,
     add_event (EvLog ERROR ("Error during writing json file: " +:+ exn_str (fault_exn f)))
       (files_after_fault f (needs_json_path self) (world_after_load self w))).
Proof.
  intros Hload Herr. rewrite NeedsBuilder_finish_eq by exact Hload.
  unfold try_except_else, NeedsListOps.write_json, open_write. simpl.
  rewrite exported_outdir.
  change (os_path.join (outdir self) NeedsListOps.default_needs_file)
    with (needs_json_path self).
  rewrite Herr, fault_exn_is_Exception. reflexivity.
Qed.

(** A successful write: the file holds the state built from the base. *)
Lemma NeedsBuilder_finish_write_ok w :
  load_returns self w = true ->
  write_error w !! needs_json_path self = None ->
  NeedsBuilder_finish filter_needs self w
  = (Ok tt,
     add_event (EvLog INFO "Needs successfully exported")
       (add_event
          (EvWrite (needs_json_path self)
             (JsonDoc (needs_list (exported_needs_list filter_needs self e
                                     (loaded_needs_list self e w)))))
          (set_files
             (<[needs_json_path self :=
                  JsonDoc (needs_list (exported_needs_list filter_needs self e
                                         (loaded_needs_list self e w)))]> (files w))
             (world_after_load self w)))).
Proof.
  intros Hload Herr. rewrite NeedsBuilder_finish_eq by exact Hload.
  unfold try_except_else, NeedsListOps.write_json, open_write. simpl.
  rewrite exported_outdir.
  change (os_path.join (outdir self) NeedsListOps.default_needs_file)
    with (needs_json_path self).
  now rewrite Herr.
Qed.

(** The entry of the current version in the state that is written. *)
Lemma exported_entry base :
  NeedsListOps.entry_of version
    (needs_list (exported_needs_list filter_needs self e base))
  = {| ve_needs := filtered;
       ve_filters := List.filter export_id (values (get_or_create_filters e)) |}.
Proof.
  unfold exported_needs_list. fold version. fold filtered.
  now rewrite entry_of_add_filters, entry_of_add_needs, entry_of_wipe.
Qed.

Lemma exported_lookup_agree base1 base2 :
  needs_list (exported_needs_list filter_needs self e base1) !! version
  = needs_list (exported_needs_list filter_needs self e base2) !! version.
Proof.
  unfold exported_needs_list. fold version.
  apply lookup_add_filters_agree, lookup_add_needs_agree, lookup_wipe_agree.
Qed.

Lemma exported_lookup_ne base v :
  v <> version ->
  needs_list (exported_needs_list filter_needs self e base) !! v = needs_list base !! v.
Proof.
  intros H. unfold exported_needs_list. fold version.
  now rewrite lookup_add_filters_ne, lookup_add_needs_ne, lookup_wipe_ne.
Qed.

(** What the next run loads, for the versions it does not rewrite, is
    what this run loaded: either the file this run wrote, or a file this
    run did not touch. *)
Lemma loaded_after_write w w1 d v :
  files w1 = <[needs_json_path self := JsonDoc d]> (files w) ->
  v <> version ->
  d !! v = needs_list (loaded_needs_list self e w) !! v ->
  needs_list (loaded_needs_list self e w1) !! v
  = needs_list (loaded_needs_list self e w) !! v.
Proof.
  intros Hfiles Hv Hd. unfold loaded_needs_list, file_doc in *. rewrite Hfiles.
  destruct (PyStr.truthy (file (needs_config self))); [|reflexivity].
  destruct (decide (needs_json_path self
                    = os_path.join (srcdir self) (file (needs_config self)))) as [Heq|Hne].
  - rewrite <- Heq in *. rewrite lookup_insert_eq. simpl. exact Hd.
  - now rewrite lookup_insert_ne.
Qed.

(** After a write that came to its end the needs file can still be
    read. *)
Lemma load_returns_after_write w w1 d :
  load_returns self w = true ->
  files w1 = <[needs_json_path self := JsonDoc d]> (files w) ->
  dirs w1 = dirs w ->
  load_returns self w1 = true.
Proof.
  unfold load_returns, needs_file_readable. intros Hload Hfiles Hdirs.
  destruct (PyStr.truthy (file (needs_config self))); [|reflexivity].
  rewrite Hfiles, Hdirs. apply andb_true_iff in Hload as [Hdir Hcontent].
  rewrite Hdir. simpl.
  destruct (decide (needs_json_path self
                    = os_path.join (srcdir self) (file (needs_config self)))) as [Heq|Hne].
  - rewrite <- Heq. now rewrite lookup_insert_eq.
  - now rewrite lookup_insert_ne.
Qed.

(** The files a run leaves, in each of the ways it can go. *)
Lemma NeedsBuilder_finish_files w :
  files (exec (NeedsBuilder_finish filter_needs self) w)
  = if load_returns self w
    then match write_error w !! needs_json_path self with
         | None =>
             <[needs_json_path self :=
                 JsonDoc (needs_list (exported_needs_list filter_needs self e
                                        (loaded_needs_list self e w)))]> (files w)
         | Some f =>
             if fault_truncates f
             then <[needs_json_path self := Partial]> (files w)
             else files w
         end
    else files w.
Proof.
  unfold exec. destruct (load_returns self w) eqn:Hload.
  - destruct (write_error w !! needs_json_path self) as [f|] eqn:Herr.
    + rewrite (NeedsBuilder_finish_write_fails w f Hload Herr). simpl.
      unfold files_after_fault. now destruct (fault_truncates f).
    + now rewrite (NeedsBuilder_finish_write_ok w Hload Herr).
  - destruct (NeedsBuilder_finish_load_fails w Hload) as [ex ->]. reflexivity.
Qed.

Lemma NeedsBuilder_finish_dirs w :
  dirs (exec (NeedsBuilder_finish filter_needs self) w) = dirs w.
Proof.
  unfold exec. destruct (load_returns self w) eqn:Hload.
  - destruct (write_error w !! needs_json_path self) as [f|] eqn:Herr.
    + rewrite (NeedsBuilder_finish_write_fails w f Hload Herr). simpl.
      unfold files_after_fault. now destruct (fault_truncates f).
    + now rewrite (NeedsBuilder_finish_write_ok w Hload Herr).
  - destruct (NeedsBuilder_finish_load_fails w Hload) as [ex ->]. reflexivity.
Qed.

Lemma NeedsBuilder_finish_write_error w :
  write_error (exec (NeedsBuilder_finish filter_needs self) w) = write_error w.
Proof.
  unfold exec. destruct (load_returns self w) eqn:Hload.
  - destruct (write_error w !! needs_json_path self) as [f|] eqn:Herr.
    + rewrite (NeedsBuilder_finish_write_fails w f Hload Herr). simpl.
      unfold files_after_fault. now destruct (fault_truncates f).
    + now rewrite (NeedsBuilder_finish_write_ok w Hload Herr).
  - destruct (NeedsBuilder_finish_load_fails w Hload) as [ex ->]. reflexivity.
Qed.

(** The state written by a second run, started with the files a first
    run has written, is the state the first run wrote. *)
Lemma exported_again w w1 :
  files w1 = <[needs_json_path self :=
                 JsonDoc (needs_list (exported_needs_list filter_needs self e
                                        (loaded_needs_list self e w)))]> (files w) ->
  needs_list (exported_needs_list filter_needs self e (loaded_needs_list self e w1))
  = needs_list (exported_needs_list filter_needs self e (loaded_needs_list self e w)).
Proof.
  intros Hfiles. apply map_eq. intros v.
  destruct (decide (v = version)) as [->|Hv].
  - apply exported_lookup_agree.
  - rewrite !exported_lookup_ne by exact Hv.
    apply loaded_after_write with
      (d := needs_list (exported_needs_list filter_needs self e
                          (loaded_needs_list self e w)));
      [exact Hfiles|exact Hv|].
    now apply exported_lookup_ne.
Qed.

(** Exporting a second time leaves every file as the first export left
    it. *)
Lemma NeedsBuilder_finish_files_twice w :
  files (exec (NeedsBuilder_finish filter_needs self)
           (exec (NeedsBuilder_finish filter_needs self) w))
  = files (exec (NeedsBuilder_finish filter_needs self) w).
Proof.
  rewrite (NeedsBuilder_finish_files (exec _ w)).
  rewrite NeedsBuilder_finish_write_error.
  pose proof (NeedsBuilder_finish_files w) as Hfiles.
  pose proof (NeedsBuilder_finish_dirs w) as Hdirs.
  destruct (load_returns self w) eqn:Hload.
  - destruct (write_error w !! needs_json_path self) as [f|] eqn:Herr.
    + destruct (fault_truncates f).
      * destruct (load_returns self (exec _ w)); [|reflexivity].
        rewrite Hfiles. apply insert_insert_eq.
      * now destruct (load_returns self (exec _ w)).
    + rewrite (load_returns_after_write w _ _ Hload Hfiles Hdirs).
      rewrite (exported_again w _ Hfiles), Hfiles. apply insert_insert_eq.
  - rewrite (load_returns_ext w _ Hfiles Hdirs), Hload. reflexivity.
Qed.

(** A run whose load returns comes to its end, whatever its write does. *)
Lemma NeedsBuilder_finish_outcome w :
  load_returns self w = true ->
  outcome (NeedsBuilder_finish filter_needs self) w = Ok tt.
Proof.
  intros Hload. unfold outcome.
  destruct (write_error w !! needs_json_path self) as [f|] eqn:Herr.
  - now rewrite (NeedsBuilder_finish_write_fails w f Hload Herr).
  - now rewrite (NeedsBuilder_finish_write_ok w Hload Herr).
Qed.

End NeedsBuilderFacts.

(** C1: for every need set and builder filter expression, the need list
    that [NeedsBuilder.finish] writes for the current version is exactly
    the list the filter evaluator returns for them, in that order. *)
Theorem NeedsBuilder_finish_exports_filtered_needs
    (filter_needs : NeedsSphinxConfig -> list NeedsInfoType -> string -> list NeedsInfoType)
    (self : BuilderObj) (e : BuildEnvironment) (w : World) :
  env self = Some e ->
  load_returns self w = true ->
  write_error w !! needs_json_path self = None ->
  exists d,
    file_doc (exec (NeedsBuilder_finish filter_needs self) w) (needs_json_path self) = Some d
    /\ version_needs (getattr_version (config e)) d
       = filter_needs (needs_config self) (values (get_or_create_needs e))
           (builder_filter (needs_config self)).
Proof.
  intros Hbound Hload Herr.
  exists (needs_list (exported_needs_list filter_needs self e (loaded_needs_list self e w))).
  split.
  - unfold exec.
    rewrite (NeedsBuilder_finish_write_ok filter_needs self e Hbound w Hload Herr).
    unfold file_doc. simpl. now rewrite lookup_insert_eq.
  - unfold version_needs. now rewrite (exported_entry filter_needs self e).
Qed.

Lemma NeedsBuilder_finish_exports_filtered_needs_witness :
  exists d,
    file_doc (exec (NeedsBuilder_finish Demo.filter_needs (Demo.builder NeedsBuilder)) Demo.world)
      "_build/needs.json" = Some d
    /\ version_needs "1.0" d = [Demo.R1; Demo.R2].
Proof.
  apply (NeedsBuilder_finish_exports_filtered_needs Demo.filter_needs
           (Demo.builder NeedsBuilder) Demo.environment Demo.world).
  - reflexivity.
  - vm_compute. reflexivity.
  - vm_compute. reflexivity.
Defined.

Lemma Demo_filter_returns_subset : returns_subset Demo.filter_needs.
Proof.
  intros cfg needs f n. unfold Demo.filter_needs.
  destruct (PyStr.truthy f); [|trivial].
  rewrite list_elem_of_In, filter_In, <- list_elem_of_In. tauto.
Qed.

(** C2: whatever the base state (a prior needs file or none), the entry
    that [NeedsBuilder.finish] writes for the current version is the same,
    and it holds only needs of the current build: what was stored under
    that version before is wiped, so a need removed from the build does not
    persist. *)
Theorem NeedsBuilder_finish_wipes_version
    (filter_needs : NeedsSphinxConfig -> list NeedsInfoType -> string -> list NeedsInfoType)
    (self : BuilderObj) (e : BuildEnvironment) (w w0 : World) :
  returns_subset filter_needs ->
  env self = Some e ->
  load_returns self w = true ->
  load_returns self w0 = true ->
  write_error w !! needs_json_path self = None ->
  write_error w0 !! needs_json_path self = None ->
  exists d d0,
    file_doc (exec (NeedsBuilder_finish filter_needs self) w) (needs_json_path self) = Some d
    /\ file_doc (exec (NeedsBuilder_finish filter_needs self) w0) (needs_json_path self) = Some d0
    /\ d !! getattr_version (config e) = d0 !! getattr_version (config e)
    /\ forall n, n ∈ version_needs (getattr_version (config e)) d ->
                 n ∈ values (get_or_create_needs e).
Proof.
  intros Hsub Hbound Hload Hload0 Herr Herr0.
  exists (needs_list (exported_needs_list filter_needs self e (loaded_needs_list self e w))),
         (needs_list (exported_needs_list filter_needs self e (loaded_needs_list self e w0))).
  repeat split.
  - unfold exec.
    rewrite (NeedsBuilder_finish_write_ok filter_needs self e Hbound w Hload Herr).
    unfold file_doc. simpl. now rewrite lookup_insert_eq.
  - unfold exec.
    rewrite (NeedsBuilder_finish_write_ok filter_needs self e Hbound w0 Hload0 Herr0).
    unfold file_doc. simpl. now rewrite lookup_insert_eq.
  - apply exported_lookup_agree.
  - intros n. unfold version_needs. rewrite (exported_entry filter_needs self e). simpl.
    apply Hsub.
Qed.

Lemma NeedsBuilder_finish_wipes_version_witness :
  exists d d0,
    file_doc (exec (NeedsBuilder_finish Demo.filter_needs (Demo.builder NeedsBuilder)) Demo.world)
      "_build/needs.json" = Some d
    /\ file_doc (exec (NeedsBuilder_finish Demo.filter_needs (Demo.builder NeedsBuilder))
                   Demo.empty_world)
         "_build/needs.json" = Some d0
    /\ d !! "1.0" = d0 !! "1.0"
    /\ forall n, n ∈ version_needs "1.0" d -> n ∈ [Demo.R1; Demo.R2].
Proof.
  apply (NeedsBuilder_finish_wipes_version Demo.filter_needs
           (Demo.builder NeedsBuilder) Demo.environment Demo.world Demo.empty_world).
  - exact Demo_filter_returns_subset.
  - reflexivity.
  - vm_compute. reflexivity.
  - vm_compute. reflexivity.
  - vm_compute. reflexivity.
  - vm_compute. reflexivity.
Defined.

(** C4: running [NeedsBuilder.finish] twice in succession with the same
    needs, filters and configuration leaves a file whose entry for every
    version label is the same after the second run as after the first, in
    every world; each of the two runs returns normally when its needs
    file can be read. *)
Theorem NeedsBuilder_finish_idempotent
    (filter_needs : NeedsSphinxConfig -> list NeedsInfoType -> string -> list NeedsInfoType)
    (self : BuilderObj) (e : BuildEnvironment) (w : World) (v : string) :
  env self = Some e ->
  let w1 := exec (NeedsBuilder_finish filter_needs self) w in
  let w2 := exec (NeedsBuilder_finish filter_needs self) w1 in
  (load_returns self w = true ->
   outcome (NeedsBuilder_finish filter_needs self) w = Ok tt)
  /\ (load_returns self w1 = true ->
      outcome (NeedsBuilder_finish filter_needs self) w1 = Ok tt)
  /\ file_version_entry w2 (needs_json_path self) v
     = file_version_entry w1 (needs_json_path self) v.
Proof.
  intros Hbound w1 w2.
  split; [apply (NeedsBuilder_finish_outcome filter_needs self e Hbound)|].
  split; [apply (NeedsBuilder_finish_outcome filter_needs self e Hbound)|].
  unfold file_version_entry, file_doc, w2, w1.
  now rewrite (NeedsBuilder_finish_files_twice filter_needs self e Hbound w).
Qed.

Lemma NeedsBuilder_finish_idempotent_witness :
  let w1 := exec (NeedsBuilder_finish Demo.filter_needs (Demo.builder NeedsBuilder)) Demo.world in
  let w2 := exec (NeedsBuilder_finish Demo.filter_needs (Demo.builder NeedsBuilder)) w1 in
  outcome (NeedsBuilder_finish Demo.filter_needs (Demo.builder NeedsBuilder)) Demo.world = Ok tt
  /\ outcome (NeedsBuilder_finish Demo.filter_needs (Demo.builder NeedsBuilder)) w1 = Ok tt
  /\ file_version_entry w2 "_build/needs.json" "1.0"
     = file_version_entry w1 "_build/needs.json" "1.0".
Proof.
  intros w1 w2.
  destruct (NeedsBuilder_finish_idempotent Demo.filter_needs
              (Demo.builder NeedsBuilder) Demo.environment Demo.world "1.0" eq_refl)
    as (Hfirst & Hsecond & Hsame).
  split; [apply Hfirst; vm_compute; reflexivity|].
  split; [apply Hsecond; vm_compute; reflexivity|exact Hsame].
Defined.

(** C6: in [NeedsBuilder.finish] an exception raised by the final write,
    whatever its class and whether or not the file had been opened, is
    caught and logged as an error, and [finish] returns normally; when the
    write succeeds, the file holds the state and the success message is
    logged at info level.  (The steps before the write have returned.) *)
Theorem NeedsBuilder_finish_catches_write_error
    (filter_needs : NeedsSphinxConfig -> list NeedsInfoType -> string -> list NeedsInfoType)
    (self : BuilderObj) (e : BuildEnvironment) (w : World) :
  env self = Some e ->
  load_returns self w = true ->
  let w' := exec (NeedsBuilder_finish filter_needs self) w in
  outcome (NeedsBuilder_finish filter_needs self) w = Ok tt
  /\ match write_error w !! needs_json_path self with
     | Some f =>
         NeedsListOps.write_json
           (exported_needs_list filter_needs self e (loaded_needs_list self e w))
           NeedsListOps.default_needs_file NeedsListOps.default_needs_path
           (world_after_load self w)
         = (Raise (fault_exn f),
            files_after_fault f (needs_json_path self) (world_after_load self w))
         /\ logs_of (trace w')
            = (logs_of (trace_after_load self w)
               ++ [(ERROR, "Error during writing json file: " +:+ exn_str (fault_exn f))])%list
         /\ files w' = files (files_after_fault f (needs_json_path self) w)
     | None =>
         logs_of (trace w')
         = (logs_of (trace_after_load self w) ++ [(INFO, "Needs successfully exported")])%list
         /\ files w'
            = <[needs_json_path self :=
                  JsonDoc (needs_list (exported_needs_list filter_needs self e
                                         (loaded_needs_list self e w)))]> (files w)
     end.
Proof.
  intros Hbound Hload w'. unfold w', outcome, exec.
  destruct (write_error w !! needs_json_path self) as [f|] eqn:Herr.
  - rewrite (NeedsBuilder_finish_write_fails filter_needs self e Hbound w f Hload Herr).
    simpl. split; [reflexivity|]. split; [|split].
    + unfold NeedsListOps.write_json, open_write. simpl.
      rewrite (exported_outdir filter_needs self e).
      change (os_path.join (outdir self) NeedsListOps.default_needs_file)
        with (needs_json_path self).
      now rewrite Herr.
    + rewrite logs_of_snoc. unfold files_after_fault.
      now destruct (fault_truncates f).
    + unfold files_after_fault. now destruct (fault_truncates f).
  - rewrite (NeedsBuilder_finish_write_ok filter_needs self e Hbound w Hload Herr).
    simpl. split; [reflexivity|]. split; [|reflexivity].
    now rewrite !logs_of_snoc, app_nil_r.
Qed.

Lemma NeedsBuilder_finish_catches_write_error_witness :
  let w' := exec (NeedsBuilder_finish Demo.filter_needs (Demo.builder NeedsBuilder))
              Demo.serialization_world in
  outcome (NeedsBuilder_finish Demo.filter_needs (Demo.builder NeedsBuilder))
    Demo.serialization_world = Ok tt
  /\ logs_of (trace w')
     = [(ERROR, "Error during writing json file: Object of type set is not JSON serializable")]
  /\ files w' !! "_build/needs.json" = Some Partial.
Proof.
  destruct (NeedsBuilder_finish_catches_write_error Demo.filter_needs
              (Demo.builder NeedsBuilder) Demo.environment Demo.serialization_world
              eq_refl eq_refl) as (Hok & _ & Hlogs & Hfiles).
  split; [exact Hok|]. split.
  - etransitivity; [exact Hlogs|]. vm_compute. reflexivity.
  - etransitivity; [exact (f_equal (fun fs => fs !! "_build/needs.json") Hfiles)|].
    vm_compute. reflexivity.
Defined.

(** ** [NeedsIdBuilder.finish] *)

Lemma truthy_false s : PyStr.truthy s = false -> s = "".
Proof. now destruct s. Qed.

Lemma join_eq_empty a b : os_path.join a b = "" -> a = "".
Proof.
  unfold os_path.join.
  destruct (PyStr.startswith_sep b) eqn:Hb.
  - intros ->. discriminate.
  - destruct a as [|c a]; [reflexivity|].
    destruct (negb (PyStr.truthy (String c a)) || PyStr.endswith_sep (String c a));
      intros H; simpl in H; discriminate H.
Qed.

Lemma path_exists_decide w d :
  bool_decide (d ∈ dirs w) || bool_decide (is_Some (files w !! d)) = true <-> path_exists w d.
Proof.
  unfold path_exists. rewrite orb_true_iff, !bool_decide_eq_true. tauto.
Qed.

(** Looking for a directory and creating it when it is missing. *)
Lemma ensure_dir_run d w :
  can_ensure_dir d w ->
  (found <- os_path_exists d ;; (if negb found then os_makedirs d else ret tt)) w
  = (Ok tt, ensure_dir d w).
Proof.
  intros Hcan. unfold bind, os_path_exists, ensure_dir.
  destruct (bool_decide (d ∈ dirs w) || bool_decide (is_Some (files w !! d))) eqn:Hex; simpl.
  - reflexivity.
  - unfold os_makedirs. destruct Hcan as [Hcan|Hcan].
    + apply path_exists_decide in Hcan. congruence.
    + now rewrite Hcan.
Qed.

Lemma ensure_dir_write_error d w : write_error (ensure_dir d w) = write_error w.
Proof. unfold ensure_dir. now destruct (_ || _). Qed.

Lemma ensure_dir_files d w : files (ensure_dir d w) = files w.
Proof. unfold ensure_dir. now destruct (_ || _). Qed.

Section NeedsIdBuilderFacts.
Variable filter_needs :
  NeedsSphinxConfig -> list NeedsInfoType -> string -> list NeedsInfoType.
Variables (self : BuilderObj) (e : BuildEnvironment).
Hypothesis bound : env self = Some e.

Let version := getattr_version (config e).
Let filtered := filter_needs (needs_config self) (values (get_or_create_needs e))
                  (builder_filter (needs_config self)).

(** [write_json] is given the directory of the per-need files. *)
Lemma needs_id_dir_used :
  (if PyStr.truthy (needs_id_dir self) then needs_id_dir self else outdir self)
  = needs_id_dir self.
Proof.
  destruct (PyStr.truthy (needs_id_dir self)) eqn:Hdir; [reflexivity|].
  apply truthy_false in Hdir. rewrite Hdir. symmetry.
  now apply join_eq_empty in Hdir.
Qed.

(** The state written for one need is fresh and holds that need only. *)
Lemma single_need_state need :
  needs_list
    (NeedsListOps.add_need version need
       (NeedsListOps.wipe_version version
          (NeedsListOps.init (config e) (outdir self) (srcdir self))))
  = single_need_doc version need.
Proof.
  unfold NeedsListOps.add_need, NeedsListOps.wipe_version, NeedsListOps.init,
    NeedsListOps.entry_of, single_need_doc. simpl.
  rewrite delete_empty, lookup_empty. simpl. apply insert_empty.
Qed.

(** One iteration never raises. *)
Lemma need_id_body_eq need w :
  need_id_body self e version (needs_id_dir self) need w
  = (Ok tt, need_id_step self version need w).
Proof.
  unfold need_id_body, try_except_else, NeedsListOps.write_json, open_write, need_id_step.
  rewrite single_need_state.
  change (nl_outdir _) with (outdir self). rewrite needs_id_dir_used.
  change (os_path.join (needs_id_dir self) (need_id need +:+ ".json"))
    with (need_json_path self need).
  destruct (write_error w !! need_json_path self need) as [f|]; [|reflexivity].
  rewrite fault_exn_is_Exception. reflexivity.
Qed.

Lemma need_id_steps_cons need l w :
  need_id_steps self version (need :: l) w
  = need_id_steps self version l (need_id_step self version need w).
Proof. reflexivity. Qed.

Lemma need_id_loop_eq l w :
  for_each l (need_id_body self e version (needs_id_dir self)) w
  = (Ok tt, need_id_steps self version l w).
Proof.
  revert w. induction l as [|need l IH]; intros w.
  - reflexivity.
  - rewrite need_id_steps_cons. simpl. unfold bind. rewrite need_id_body_eq. apply IH.
Qed.

Lemma need_id_step_write_error need w :
  write_error (need_id_step self version need w) = write_error w.
Proof.
  unfold need_id_step. destruct (write_error w !! _) as [f|]; [|reflexivity].
  now destruct (fault_truncates f).
Qed.

Lemma need_id_steps_write_error l w :
  write_error (need_id_steps self version l w) = write_error w.
Proof.
  revert w. induction l as [|need l IH]; intros w; [reflexivity|].
  now rewrite need_id_steps_cons, IH, need_id_step_write_error.
Qed.

Lemma need_id_step_trace need w w0 :
  write_error w = write_error w0 ->
  trace (need_id_step self version need w)
  = (trace w ++ [need_id_event self version w0 need])%list.
Proof.
  intros Hwe. unfold need_id_step, need_id_event. rewrite Hwe.
  destruct (write_error w0 !! _) as [f|]; [|reflexivity].
  now destruct (fault_truncates f).
Qed.

(** Every need leaves exactly one event, failing or not. *)
Lemma need_id_steps_trace l w w0 :
  write_error w = write_error w0 ->
  trace (need_id_steps self version l w)
  = (trace w ++ map (need_id_event self version w0) l)%list.
Proof.
  revert w. induction l as [|need l IH]; intros w Hwe.
  - simpl. now rewrite app_nil_r.
  - rewrite need_id_steps_cons, IH.
    + rewrite (need_id_step_trace need w w0 Hwe). simpl. now rewrite <- app_assoc.
    + now rewrite need_id_step_write_error.
Qed.

(** The file of a need holds that need when no other need of the loop
    is written to the same path. *)
Lemma need_id_steps_files l w need :
  write_error w !! need_json_path self need = None ->
  (forall need', need' ∈ l -> need_json_path self need' = need_json_path self need ->
                 need' = need) ->
  need ∈ l
  \/ files w !! need_json_path self need = Some (JsonDoc (single_need_doc version need)) ->
  files (need_id_steps self version l w) !! need_json_path self need
  = Some (JsonDoc (single_need_doc version need)).
Proof.
  revert w. induction l as [|x l IH]; intros w Herr Huniq Hin.
  - destruct Hin as [Hin|Hin]; [|exact Hin]. now apply elem_of_nil in Hin.
  - rewrite need_id_steps_cons. apply IH.
    + now rewrite need_id_step_write_error.
    + intros need' Hin'. apply Huniq. now right.
    + assert (Hstep : need_json_path self x = need_json_path self need ->
                      files (need_id_step self version x w) !! need_json_path self need
                      = Some (JsonDoc (single_need_doc version need))).
      { intros Hpath. rewrite (Huniq x) by (trivial; now left).
        unfold need_id_step. rewrite Herr. simpl. apply lookup_insert_eq. }
      destruct Hin as [Hin|Hin].
      * apply elem_of_cons in Hin as [->|Hin]; [right; now apply Hstep|now left].
      * right.
        destruct (decide (need_json_path self x = need_json_path self need)) as [Heq|Hne].
        -- now apply Hstep.
        -- unfold need_id_step.
           destruct (write_error w !! need_json_path self x) as [f|]; simpl.
           ++ destruct (fault_truncates f); simpl; [|exact Hin].
              now rewrite lookup_insert_ne.
           ++ now rewrite lookup_insert_ne.
Qed.

(** The whole run, when the directory of the per-need files is there or
    can be created. *)
Lemma NeedsIdBuilder_finish_eq w :
  can_ensure_dir (needs_id_dir self) w ->
  NeedsIdBuilder_finish filter_needs self w
  = (Ok tt,
     add_event (EvLog INFO "Needs_id successfully exported")
       (need_id_steps self version filtered (ensure_dir (needs_id_dir self) w))).
Proof.
  intros Hcan. unfold NeedsIdBuilder_finish, self_env. rewrite bound.
  unfold bind at 1. unfold ret at 1.
  fold version. fold filtered.
  change (os_path.join (outdir self) (build_json_per_id_path (needs_config self)))
    with (needs_id_dir self).
  pose proof (ensure_dir_run (needs_id_dir self) w Hcan) as Hdir.
  unfold bind in *.
  destruct (os_path_exists (needs_id_dir self) w) as [[found|ex] w1]; [|discriminate].
  rewrite Hdir. rewrite need_id_loop_eq. reflexivity.
Qed.

End NeedsIdBuilderFacts.

(** C5: for every need record [R] that survives the filter,
    [NeedsIdBuilder.finish] writes the file [<id>.json] in the configured
    output subdirectory, and what it writes is a fresh state whose only
    entry is the current version holding exactly [R].  The file still holds
    that state at the end when no other surviving need is written to the
    same path. *)
Theorem NeedsIdBuilder_finish_writes_need_file
    (filter_needs : NeedsSphinxConfig -> list NeedsInfoType -> string -> list NeedsInfoType)
    (self : BuilderObj) (e : BuildEnvironment) (w : World) (R : NeedsInfoType) :
  env self = Some e ->
  can_ensure_dir (needs_id_dir self) w ->
  R ∈ filter_needs (needs_config self) (values (get_or_create_needs e))
        (builder_filter (needs_config self)) ->
  write_error w !! need_json_path self R = None ->
  let version := getattr_version (config e) in
  let w' := exec (NeedsIdBuilder_finish filter_needs self) w in
  need_json_path self R
  = os_path.join (os_path.join (outdir self) (build_json_per_id_path (needs_config self)))
      (need_id R +:+ ".json")
  /\ EvWrite (need_json_path self R) (JsonDoc (single_need_doc version R)) ∈ trace w'
  /\ ((forall R', R' ∈ filter_needs (needs_config self) (values (get_or_create_needs e))
                         (builder_filter (needs_config self)) ->
                  need_json_path self R' = need_json_path self R -> R' = R) ->
      files w' !! need_json_path self R = Some (JsonDoc (single_need_doc version R))).
Proof.
  intros Hbound Hcan Hin Herr version w'. unfold w', exec.
  rewrite (NeedsIdBuilder_finish_eq filter_needs self e Hbound w Hcan). simpl.
  split; [reflexivity|]. split.
  - rewrite (need_id_steps_trace self e _ _ w) by apply ensure_dir_write_error.
    rewrite !elem_of_app. left. right.
    apply list_elem_of_fmap. exists R. split; [|exact Hin].
    unfold need_id_event. now rewrite Herr.
  - intros Huniq. apply (need_id_steps_files self e).
    + now rewrite ensure_dir_write_error.
    + exact Huniq.
    + now left.
Qed.

Lemma NeedsIdBuilder_finish_writes_need_file_witness :
  let w' := exec (NeedsIdBuilder_finish Demo.filter_needs (Demo.builder NeedsIdBuilder))
              Demo.world in
  EvWrite "_build/needs_id/R2.json" (JsonDoc (single_need_doc "1.0" Demo.R2)) ∈ trace w'
  /\ files w' !! "_build/needs_id/R2.json" = Some (JsonDoc (single_need_doc "1.0" Demo.R2)).
Proof.
  assert (Hin : Demo.R2 ∈ [Demo.R1; Demo.R2]) by (right; left).
  assert (Hdir : can_ensure_dir "_build/needs_id" Demo.world) by (right; reflexivity).
  destruct (NeedsIdBuilder_finish_writes_need_file Demo.filter_needs
              (Demo.builder NeedsIdBuilder) Demo.environment Demo.world Demo.R2
              eq_refl Hdir Hin eq_refl) as [_ [Hwrite Hfile]].
  split; [exact Hwrite|]. apply Hfile.
  intros R' HR'. apply elem_of_cons in HR' as [->|HR'].
  - vm_compute. discriminate.
  - apply list_elem_of_singleton in HR'. now intros _.
Defined.

(** C7: in [NeedsIdBuilder.finish] an exception raised while writing the
    file of one need, whatever its class, is caught and logged for that
    need, and the loop goes on: [finish] returns normally, every surviving
    need leaves its own event, the file written or the error logged, and
    the file of every need whose write is permitted is written and holds
    that need at the end (no other surviving need being written to the
    same path), whatever happened to the others. *)
Theorem NeedsIdBuilder_finish_isolates_write_errors
    (filter_needs : NeedsSphinxConfig -> list NeedsInfoType -> string -> list NeedsInfoType)
    (self : BuilderObj) (e : BuildEnvironment) (w : World) :
  env self = Some e ->
  can_ensure_dir (needs_id_dir self) w ->
  let version := getattr_version (config e) in
  let filtered := filter_needs (needs_config self) (values (get_or_create_needs e))
                    (builder_filter (needs_config self)) in
  let w' := exec (NeedsIdBuilder_finish filter_needs self) w in
  outcome (NeedsIdBuilder_finish filter_needs self) w = Ok tt
  /\ trace w' = (trace (ensure_dir (needs_id_dir self) w)
                 ++ map (need_id_event self version w) filtered
                 ++ [EvLog INFO "Needs_id successfully exported"])%list
  /\ forall need, need ∈ filtered ->
       match write_error w !! need_json_path self need with
       | Some f =>
           EvLog ERROR
             ("Needs-ID Builder " +:+ need_id need +:+ " error: " +:+ exn_str (fault_exn f))
           ∈ trace w'
       | None =>
           EvWrite (need_json_path self need) (JsonDoc (single_need_doc version need))
           ∈ trace w'
           /\ ((forall need', need' ∈ filtered ->
                              need_json_path self need' = need_json_path self need ->
                              need' = need) ->
               files w' !! need_json_path self need
               = Some (JsonDoc (single_need_doc version need)))
       end.
Proof.
  intros Hbound Hcan version filtered w'.
  assert (Hrun : NeedsIdBuilder_finish filter_needs self w
                 = (Ok tt,
                    add_event (EvLog INFO "Needs_id successfully exported")
                      (need_id_steps self version filtered
                         (ensure_dir (needs_id_dir self) w))))
    by apply (NeedsIdBuilder_finish_eq filter_needs self e Hbound w Hcan).
  assert (Htrace : trace w' = (trace (ensure_dir (needs_id_dir self) w)
                               ++ map (need_id_event self version w) filtered
                               ++ [EvLog INFO "Needs_id successfully exported"])%list).
  { unfold w', exec. rewrite Hrun. simpl.
    rewrite (need_id_steps_trace self e _ _ w) by apply ensure_dir_write_error.
    now rewrite <- app_assoc. }
  split; [|split].
  - unfold outcome. now rewrite Hrun.
  - exact Htrace.
  - intros need Hin.
    assert (Hev : need_id_event self version w need ∈ trace w').
    { rewrite Htrace, !elem_of_app. right. left.
      apply list_elem_of_fmap. now exists need. }
    unfold need_id_event in Hev.
    destruct (write_error w !! need_json_path self need) as [f|] eqn:Herr; [exact Hev|].
    split; [exact Hev|]. intros Huniq.
    unfold w', exec. rewrite Hrun. simpl.
    apply (need_id_steps_files self e); [|exact Huniq|now left].
    now rewrite ensure_dir_write_error.
Qed.

Lemma NeedsIdBuilder_finish_isolates_write_errors_witness :
  let w' := exec (NeedsIdBuilder_finish Demo.filter_needs (Demo.builder NeedsIdBuilder))
              Demo.serialization_world in
  outcome (NeedsIdBuilder_finish Demo.filter_needs (Demo.builder NeedsIdBuilder))
    Demo.serialization_world
  = Ok tt
  /\ trace w'
     = [EvMakedirs "_build/needs_id";
        EvLog ERROR
          "Needs-ID Builder R1 error: Object of type set is not JSON serializable";
        EvWrite "_build/needs_id/R2.json" (JsonDoc (single_need_doc "1.0" Demo.R2));
        EvLog INFO "Needs_id successfully exported"]
  /\ files w' !! "_build/needs_id/R2.json" = Some (JsonDoc (single_need_doc "1.0" Demo.R2)).
Proof.
  assert (Hdir : can_ensure_dir "_build/needs_id" Demo.serialization_world)
    by (right; reflexivity).
  destruct (NeedsIdBuilder_finish_isolates_write_errors Demo.filter_needs
              (Demo.builder NeedsIdBuilder) Demo.environment Demo.serialization_world
              eq_refl Hdir) as (Hok & Htrace & Hneeds).
  split; [exact Hok|]. split.
  - etransitivity; [exact Htrace|]. vm_compute. reflexivity.
  - assert (Hin : Demo.R2 ∈ [Demo.R1; Demo.R2]) by (right; left).
    apply (proj2 (Hneeds Demo.R2 Hin)).
    intros need' Hin'. apply elem_of_cons in Hin' as [->|Hin'].
    + vm_compute. discriminate.
    + apply list_elem_of_singleton in Hin'. now intros _.
Defined.

(** ** [NeedumlsBuilder.finish] *)

Lemma ancestors_self d : d ∈ os_path.ancestors d.
Proof. unfold os_path.ancestors. cbn [os_path.chain]. left. Qed.

Lemma extends_refl w : extends w w.
Proof. now repeat split. Qed.

Lemma extends_trans w0 w1 w2 : extends w0 w1 -> extends w1 w2 -> extends w0 w2.
Proof.
  intros (Hw & Hm & Hp) (Hw' & Hm' & Hp'). repeat split.
  - congruence.
  - congruence.
  - auto.
Qed.

Lemma add_event_extends ev w : extends w (add_event ev w).
Proof. now repeat split. Qed.

Lemma write_extends path c w : extends w (set_files (<[path := c]> (files w)) w).
Proof.
  repeat split. intros p [Hp|Hp]; [now left|right]. simpl.
  destruct (decide (path = p)) as [->|Hne].
  - rewrite lookup_insert_eq. eauto.
  - now rewrite lookup_insert_ne.
Qed.

Lemma ensure_dir_extends d w : extends w (ensure_dir d w).
Proof.
  unfold ensure_dir. destruct (_ || _); [apply extends_refl|].
  repeat split. intros p [Hp|Hp]; [left|now right]. simpl. set_solver.
Qed.

Lemma ensure_dir_exists d w : path_exists (ensure_dir d w) d.
Proof.
  unfold ensure_dir.
  destruct (bool_decide (d ∈ dirs w) || bool_decide (is_Some (files w !! d))) eqn:Hex.
  - now apply path_exists_decide.
  - left. change (d ∈ dirs w ∪ list_to_set (os_path.ancestors d)).
    apply elem_of_union_r, elem_of_list_to_set, ancestors_self.
Qed.

Lemma can_ensure_dir_extends d w0 w : extends w0 w -> can_ensure_dir d w0 -> can_ensure_dir d w.
Proof.
  intros (_ & Hm & Hp) [Hex|Hmk]; [left; auto|right; congruence].
Qed.

Lemma ensure_dir_writes d w : writes_of (trace (ensure_dir d w)) = writes_of (trace w).
Proof.
  unfold ensure_dir. destruct (_ || _); [reflexivity|].
  simpl. now rewrite writes_of_snoc, app_nil_r.
Qed.

Lemma ensure_dir_logs d w : logs_of (trace (ensure_dir d w)) = logs_of (trace w).
Proof.
  unfold ensure_dir. destruct (_ || _); [reflexivity|].
  simpl. now rewrite logs_of_snoc, app_nil_r.
Qed.

Section NeedumlsBuilderFacts.
Variable self : BuilderObj.

Lemma needuml_ready_extends w0 w u :
  extends w0 w -> needuml_ready self w0 u -> needuml_ready self w u.
Proof.
  intros Hext Hready Hset. destruct (Hready Hset) as [Hdir Hwr]. split.
  - now apply (can_ensure_dir_extends _ w0).
  - destruct Hext as (Hw & _). now rewrite Hw.
Qed.

(** One iteration, for a diagram that the world lets be stored. *)
Lemma needuml_body_eq u w :
  needuml_ready self w u ->
  needuml_body self u w = (Ok tt, needuml_step self u w).
Proof.
  intros Hready. unfold needuml_body, needuml_step.
  destruct (save_is_set u) eqn:Hset; [|reflexivity].
  destruct (Hready Hset) as [Hdir Hwr].
  change (os_path.join (outdir self) (save_path_of u)) with (needuml_path self u).
  pose proof (ensure_dir_run _ w Hdir) as Hrun.
  unfold bind in *.
  destruct (os_path_exists (os_path.dirname (needuml_path self u)) w)
    as [[found|ex] w1]; [|discriminate].
  rewrite Hrun. unfold log_info, emit, open_write.
  fold (needuml_message self u). simpl.
  pose proof (ensure_dir_extends (os_path.dirname (needuml_path self u)) w)
    as (Hw & _).
  now rewrite Hw, Hwr.
Qed.

Lemma needuml_step_extends u w : extends w (needuml_step self u w).
Proof.
  unfold needuml_step. destruct (save_is_set u); [|apply extends_refl].
  eapply extends_trans; [apply ensure_dir_extends|].
  eapply extends_trans; [apply add_event_extends|].
  eapply extends_trans; [apply write_extends|apply add_event_extends].
Qed.

Lemma needuml_step_after_dir u w :
  save_is_set u = true ->
  extends (ensure_dir (os_path.dirname (needuml_path self u)) w) (needuml_step self u w).
Proof.
  intros Hset. unfold needuml_step. rewrite Hset.
  eapply extends_trans; [apply add_event_extends|].
  eapply extends_trans; [apply write_extends|apply add_event_extends].
Qed.

Lemma needuml_steps_cons u l w :
  needuml_steps self (u :: l) w = needuml_steps self l (needuml_step self u w).
Proof. reflexivity. Qed.

Lemma needuml_steps_extends l w : extends w (needuml_steps self l w).
Proof.
  revert w. induction l as [|u l IH]; intros w; [apply extends_refl|].
  rewrite needuml_steps_cons.
  eapply extends_trans; [apply needuml_step_extends|apply IH].
Qed.

(** The loop runs to its end when the world lets every diagram be
    stored. *)
Lemma needuml_loop_eq l w :
  (forall u, u ∈ l -> needuml_ready self w u) ->
  for_each l (needuml_body self) w = (Ok tt, needuml_steps self l w).
Proof.
  revert w. induction l as [|u l IH]; intros w Hready.
  - reflexivity.
  - rewrite needuml_steps_cons. simpl. unfold bind.
    rewrite needuml_body_eq by (apply Hready; left).
    apply IH. intros u' Hin.
    apply (needuml_ready_extends w); [apply needuml_step_extends|].
    apply Hready. now right.
Qed.

(** One write per diagram with [save] set, none for the others. *)
Lemma needuml_steps_writes l w :
  writes_of (trace (needuml_steps self l w))
  = (writes_of (trace w)
     ++ map (fun u => (needuml_path self u, Text (content_calculated u)))
          (List.filter save_is_set l))%list.
Proof.
  revert w. induction l as [|u l IH]; intros w.
  - simpl. now rewrite app_nil_r.
  - rewrite needuml_steps_cons, IH. unfold needuml_step. simpl.
    destruct (save_is_set u); [|reflexivity]. simpl.
    rewrite !writes_of_snoc, ensure_dir_writes, app_nil_r.
    now rewrite <- app_assoc.
Qed.

(** One log record per diagram with [save] set, none for the others. *)
Lemma needuml_steps_logs l w :
  logs_of (trace (needuml_steps self l w))
  = (logs_of (trace w)
     ++ map (fun u => (INFO, needuml_message self u)) (List.filter save_is_set l))%list.
Proof.
  revert w. induction l as [|u l IH]; intros w.
  - simpl. now rewrite app_nil_r.
  - rewrite needuml_steps_cons, IH. unfold needuml_step. simpl.
    destruct (save_is_set u); [|reflexivity]. simpl.
    rewrite !logs_of_snoc, ensure_dir_logs, app_nil_r.
    now rewrite <- app_assoc.
Qed.

(** The directory of every stored diagram is there at the end. *)
Lemma needuml_steps_dirs l w u :
  u ∈ l -> save_is_set u = true ->
  path_exists (needuml_steps self l w) (os_path.dirname (needuml_path self u)).
Proof.
  revert w. induction l as [|x l IH]; intros w Hin Hset.
  - now apply elem_of_nil in Hin.
  - rewrite needuml_steps_cons. apply elem_of_cons in Hin as [->|Hin].
    + apply (needuml_steps_extends l), (needuml_step_after_dir x w Hset).
      apply ensure_dir_exists.
    + now apply IH.
Qed.

(** Files that are the target of no stored diagram are left alone. *)
Lemma needuml_steps_files_other l w p :
  (forall u, u ∈ l -> save_is_set u = true -> needuml_path self u <> p) ->
  files (needuml_steps self l w) !! p = files w !! p.
Proof.
  revert w. induction l as [|u l IH]; intros w Hother; [reflexivity|].
  rewrite needuml_steps_cons, IH by (intros u' Hin; apply Hother; now right).
  unfold needuml_step. destruct (save_is_set u) eqn:Hset; [|reflexivity]. simpl.
  rewrite lookup_insert_ne by (apply Hother; [now left|exact Hset]).
  now rewrite ensure_dir_files.
Qed.

(** The file at a destination holds the content stored there, when every
    record stored there has that content. *)
Lemma needuml_steps_files l w p c :
  (forall x, x ∈ l -> save_is_set x = true -> needuml_path self x = p ->
             content_calculated x = c) ->
  (exists x, x ∈ l /\ save_is_set x = true /\ needuml_path self x = p)
  \/ files w !! p = Some (Text c) ->
  files (needuml_steps self l w) !! p = Some (Text c).
Proof.
  revert w. induction l as [|x l IH]; intros w Hsame Hin.
  - destruct Hin as [(y & Hy & _)|Hin]; [now apply elem_of_nil in Hy|exact Hin].
  - rewrite needuml_steps_cons. apply IH.
    + intros y Hy. apply Hsame. now right.
    + assert (Hstep : save_is_set x = true -> needuml_path self x = p ->
                      files (needuml_step self x w) !! p = Some (Text c)).
      { intros Hset Hpath. unfold needuml_step. rewrite Hset. simpl.
        rewrite Hpath, lookup_insert_eq, <- (Hsame x); auto. now left. }
      destruct Hin as [(y & Hy & Hset & Hpath)|Hin].
      * apply elem_of_cons in Hy as [->|Hy]; [right; now apply Hstep|].
        left. now exists y.
      * right. destruct (save_is_set x) eqn:Hset.
        -- destruct (decide (needuml_path self x = p)) as [Heq|Hne];
             [now apply Hstep|].
           unfold needuml_step. rewrite Hset. simpl.
           now rewrite lookup_insert_ne, ensure_dir_files.
        -- unfold needuml_step. now rewrite Hset.
Qed.

End NeedumlsBuilderFacts.

(** C8: [NeedumlsBuilder.finish] writes nothing and logs nothing for a
    diagram record whose [save] field is unset; for each record whose
    [save] field is set it makes sure the directory of the destination is
    there and writes the record's [content_calculated], unchanged, to the
    [save] path joined to the output directory, so that the file there
    holds it at the end (when no record with another content is stored at
    the same destination).  The world is one that lets these directories
    be created and these files be written. *)
Theorem NeedumlsBuilder_finish_stores_saved_diagrams
    (self : BuilderObj) (e : BuildEnvironment) (w : World) :
  env self = Some e ->
  (forall u, u ∈ values (get_or_create_umls e) -> needuml_ready self w u) ->
  let needumls := values (get_or_create_umls e) in
  let w' := exec (NeedumlsBuilder_finish self) w in
  outcome (NeedumlsBuilder_finish self) w = Ok tt
  /\ writes_of (trace w')
     = (writes_of (trace w)
        ++ map (fun u => (os_path.join (outdir self) (save_path_of u),
                          Text (content_calculated u)))
             (List.filter save_is_set needumls))%list
  /\ logs_of (trace w')
     = (logs_of (trace w)
        ++ map (fun u => (INFO, needuml_message self u))
             (List.filter save_is_set needumls))%list
  /\ (forall u, u ∈ needumls -> save_is_set u = true ->
                path_exists w'
                  (os_path.dirname (os_path.join (outdir self) (save_path_of u))))
  /\ (forall p, (forall u, u ∈ needumls -> save_is_set u = true ->
                           os_path.join (outdir self) (save_path_of u) <> p) ->
                files w' !! p = files w !! p)
  /\ (forall u, u ∈ needumls -> save_is_set u = true ->
                (forall x, x ∈ needumls -> save_is_set x = true ->
                           os_path.join (outdir self) (save_path_of x)
                           = os_path.join (outdir self) (save_path_of u) ->
                           content_calculated x = content_calculated u) ->
                files w' !! os_path.join (outdir self) (save_path_of u)
                = Some (Text (content_calculated u))).
Proof.
  intros Hbound Hready needumls w'.
  assert (Hrun : NeedumlsBuilder_finish self w = (Ok tt, needuml_steps self needumls w)).
  { unfold NeedumlsBuilder_finish, self_env. rewrite Hbound.
    unfold bind at 1. unfold ret at 1. now apply needuml_loop_eq. }
  unfold w', outcome, exec. rewrite Hrun. simpl.
  split; [reflexivity|]. split; [apply needuml_steps_writes|].
  split; [apply needuml_steps_logs|]. split; [|split].
  - intros u. apply needuml_steps_dirs.
  - intros p. apply needuml_steps_files_other.
  - intros u Hin Hset Hsame. apply needuml_steps_files; [exact Hsame|].
    left. now exists u.
Qed.

Lemma NeedumlsBuilder_finish_stores_saved_diagrams_witness :
  let w' := exec (NeedumlsBuilder_finish (Demo.builder NeedumlsBuilder)) Demo.world in
  outcome (NeedumlsBuilder_finish (Demo.builder NeedumlsBuilder)) Demo.world = Ok tt
  /\ writes_of (trace w') = [("_build/sub/dir/out.puml", Text "@startuml")]
  /\ logs_of (trace w')
     = [(INFO, "Storing needuml data to file _build/sub/dir/out.puml.")]
  /\ files w' !! "_build/sub/dir/out.puml" = Some (Text "@startuml")
  /\ path_exists w' "_build/sub/dir".
Proof.
  assert (Hready : forall u, u ∈ [Demo.U1; Demo.U2] ->
                             needuml_ready (Demo.builder NeedumlsBuilder) Demo.world u).
  { intros u Hin. apply elem_of_cons in Hin as [->|Hin].
    - intros _. split; [right; reflexivity|reflexivity].
    - apply list_elem_of_singleton in Hin as ->. intros Hset. discriminate Hset. }
  assert (Hin : Demo.U1 ∈ [Demo.U1; Demo.U2]) by left.
  destruct (NeedumlsBuilder_finish_stores_saved_diagrams
              (Demo.builder NeedumlsBuilder) Demo.environment Demo.world eq_refl Hready)
    as (Hok & Hwrites & Hlogs & Hdirs & _ & Hfiles).
  split; [exact Hok|]. split; [exact Hwrites|]. split; [exact Hlogs|]. split.
  - apply (Hfiles Demo.U1 Hin eq_refl).
    intros x Hx Hset _. apply elem_of_cons in Hx as [->|Hx]; [reflexivity|].
    apply list_elem_of_singleton in Hx as ->. discriminate Hset.
  - apply (Hdirs Demo.U1 Hin eq_refl).
Defined.

(** [NeedumlsBuilder.finish] has no handler around its write: an error
    there ends the run, and the diagrams that follow are not stored. *)
Example NeedumlsBuilder_finish_write_error_propagates :
  outcome (NeedumlsBuilder_finish Demo.locked_builder) Demo.locked_world
  = Raise (OSError "Permission denied")
  /\ writes_of (trace (exec (NeedumlsBuilder_finish Demo.locked_builder) Demo.locked_world))
     = [].
Proof. split; vm_compute; reflexivity. Qed.

(** ** [NeedsBuilderBase] *)

(** C3, as the code has it: [get_outdated_docs] returns the found
    documents of the environment, every one of them, and changes nothing;
    so it reports no document only for an environment without documents. *)
Theorem get_outdated_docs_returns_found_docs
    (self : BuilderObj) (e : BuildEnvironment) (w : World) :
  env self = Some e ->
  get_outdated_docs self w = (Ok (found_docs e), w)
  /\ (outcome (get_outdated_docs self) w = Ok ∅ <-> found_docs e = ∅).
Proof.
  intros Hbound. unfold outcome, get_outdated_docs, self_env. rewrite Hbound.
  split; [reflexivity|]. simpl. split.
  - intros H. now inversion H.
  - now intros ->.
Qed.

Lemma get_outdated_docs_returns_found_docs_witness :
  get_outdated_docs (Demo.builder NeedsBuilderBase) Demo.world
  = (Ok {[ "index" ]}, Demo.world).
Proof.
  exact (proj1 (get_outdated_docs_returns_found_docs
                  (Demo.builder NeedsBuilderBase) Demo.environment Demo.world eq_refl)).
Defined.

(** C3, as the spec has it, fails: for a project with one document,
    [get_outdated_docs] does not return the empty collection. *)
Lemma get_outdated_docs_reports_documents :
  outcome (get_outdated_docs (Demo.builder NeedsBuilderBase)) Demo.world <> Ok ∅.
Proof.
  intros H. vm_compute in H. discriminate H.
Qed.

(** C10: [NeedsBuilder] overrides [skip_write_phase] to [False], so its
    [write] is the host's full write phase; the base class and the two
    other builders have [skip_write_phase = True], the latter by
    inheritance, and their [write] returns without doing anything. *)
Theorem write_runs_only_for_NeedsBuilder
    (Builder_write : BuilderObj -> option (list string) -> list string -> string -> M unit)
    (self : BuilderObj) (build_docnames : option (list string))
    (updated_docnames : list string) (method : string) (w : World) :
  own_skip_write_phase NeedsBuilder = Some false
  /\ (cls self = NeedsBuilder ->
      write Builder_write self build_docnames updated_docnames method
      = Builder_write self build_docnames updated_docnames method)
  /\ own_skip_write_phase NeedsBuilderBase = Some true
  /\ own_skip_write_phase NeedumlsBuilder = None
  /\ own_skip_write_phase NeedsIdBuilder = None
  /\ (cls self ∈ [NeedsBuilderBase; NeedumlsBuilder; NeedsIdBuilder] ->
      skip_write_phase (cls self) = Some true
      /\ write Builder_write self build_docnames updated_docnames method w = (Ok tt, w)).
Proof.
  split; [reflexivity|]. split.
  { intros Hcls. unfold write. now rewrite Hcls. }
  do 3 (split; [reflexivity|]).
  unfold write. rewrite !elem_of_cons, elem_of_nil.
  intros [->|[->|[->|[]]]]; split; reflexivity.
Qed.

Lemma write_runs_only_for_NeedsBuilder_witness :
  write Demo.Builder_write (Demo.builder NeedsBuilder) None ["index"] "update"
  = Demo.Builder_write (Demo.builder NeedsBuilder) None ["index"] "update"
  /\ write Demo.Builder_write (Demo.builder NeedsIdBuilder) None ["index"] "update" Demo.world
     = (Ok tt, Demo.world).
Proof.
  split.
  - exact (proj1 (proj2 (write_runs_only_for_NeedsBuilder Demo.Builder_write
                           (Demo.builder NeedsBuilder) None ["index"] "update" Demo.world))
             eq_refl).
  - refine (proj2 (proj2 (proj2 (proj2 (proj2 (proj2
              (write_runs_only_for_NeedsBuilder Demo.Builder_write
                 (Demo.builder NeedsIdBuilder) None ["index"] "update" Demo.world))))) _)).
    right. right. left.
Defined.

(** ** The post-build hooks *)

(** Both ways of constructing the secondary builder give the same object,
    whatever the version of the host. *)
Lemma secondary_builder_constructed (c : BuilderClass) (app : Sphinx) (w : World) :
  try_except_else (Builder_init c app (Some (app_env app))) is_TypeError
    (fun _ =>
       b <- Builder_init c app None ;;
       ret (set_environment b (app_env app)))
    ret w
  = (Ok (secondary_builder c app), w).
Proof.
  unfold try_except_else, Builder_init.
  destruct (5 <=? version_info0 app)%nat; reflexivity.
Qed.

(** C9: every post-build hook returns at once, leaving the world as it is,
    when its flag in the configuration is unset or false, or when the
    builder of the primary build is an instance of the builder class of the
    hook; only otherwise does it construct a secondary builder and run the
    [finish] of that builder. *)
Theorem post_build_hooks_guarded
    (filter_needs : NeedsSphinxConfig -> list NeedsInfoType -> string -> list NeedsInfoType)
    (app : Sphinx) (_exception : option exn) (w : World) :
  let options := needs_options (config (app_env app)) in
  ((build_json options = false \/ isinstance (app_builder app) NeedsBuilder = true ->
    build_needs_json filter_needs app _exception w = (Ok tt, w))
   /\ (build_json options = true -> isinstance (app_builder app) NeedsBuilder = false ->
       build_needs_json filter_needs app _exception w
       = NeedsBuilder_finish filter_needs (secondary_builder NeedsBuilder app) w))
  /\ ((build_json_per_id options = false
       \/ isinstance (app_builder app) NeedsIdBuilder = true ->
       build_needs_id_json filter_needs app _exception w = (Ok tt, w))
      /\ (build_json_per_id options = true ->
          isinstance (app_builder app) NeedsIdBuilder = false ->
          build_needs_id_json filter_needs app _exception w
          = NeedsIdBuilder_finish filter_needs (secondary_builder NeedsIdBuilder app) w))
  /\ ((PyStr.truthy (build_needumls options) = false
       \/ isinstance (app_builder app) NeedumlsBuilder = true ->
       build_needumls_pumls filter_needs app _exception w = (Ok tt, w))
      /\ (PyStr.truthy (build_needumls options) = true ->
          isinstance (app_builder app) NeedumlsBuilder = false ->
          build_needumls_pumls filter_needs app _exception w
          = NeedumlsBuilder_finish
              (set_outdir (secondary_builder NeedumlsBuilder app)
                 (os_path.join (app_outdir app) (build_needumls options))) w)).
Proof.
  intros options. repeat apply conj.
  - unfold build_needs_json. fold options. intros [-> | Hinst]; [reflexivity|].
    rewrite Hinst. now destruct (build_json options).
  - unfold build_needs_json. fold options. intros -> ->. cbn [negb].
    unfold bind at 1. now rewrite secondary_builder_constructed.
  - unfold build_needs_id_json. fold options. intros [-> | Hinst]; [reflexivity|].
    rewrite Hinst. now destruct (build_json_per_id options).
  - unfold build_needs_id_json. fold options. intros -> ->. cbn [negb].
    unfold bind at 1. now rewrite secondary_builder_constructed.
  - unfold build_needumls_pumls. fold options. intros [-> | Hinst]; [reflexivity|].
    rewrite Hinst. now destruct (PyStr.truthy (build_needumls options)).
  - unfold build_needumls_pumls. fold options. intros -> ->. cbn [negb].
    unfold bind at 1, Builder_init.
    destruct (5 <=? version_info0 app)%nat; reflexivity.
Qed.

Lemma post_build_hooks_guarded_witness :
  build_needs_json Demo.filter_needs Demo.quiet_app None Demo.world = (Ok tt, Demo.world)
  /\ build_needs_id_json Demo.filter_needs
       (Demo.app (Demo.builder NeedsIdBuilder) 7) None Demo.world = (Ok tt, Demo.world)
  /\ build_needs_json Demo.filter_needs (Demo.app Demo.html 4) None Demo.world
     = NeedsBuilder_finish Demo.filter_needs
         (secondary_builder NeedsBuilder (Demo.app Demo.html 4)) Demo.world
  /\ build_needumls_pumls Demo.filter_needs (Demo.app Demo.html 7) None Demo.world
     = NeedumlsBuilder_finish
         (set_outdir (secondary_builder NeedumlsBuilder (Demo.app Demo.html 7)) "_build/pumls")
         Demo.world.
Proof.
  split; [|split; [|split]].
  - apply (proj1 (proj1 (post_build_hooks_guarded Demo.filter_needs
                           Demo.quiet_app None Demo.world))).
    left. reflexivity.
  - apply (proj1 (proj1 (proj2 (post_build_hooks_guarded Demo.filter_needs
                                  (Demo.app (Demo.builder NeedsIdBuilder) 7) None Demo.world)))).
    right. reflexivity.
  - apply (proj2 (proj1 (post_build_hooks_guarded Demo.filter_needs
                           (Demo.app Demo.html 4) None Demo.world))); reflexivity.
  - apply (proj2 (proj2 (proj2 (post_build_hooks_guarded Demo.filter_needs
                                  (Demo.app Demo.html 7) None Demo.world)))); reflexivity.
Defined.


(** ** Further properties of [NeedsBuilder.finish] *)

Lemma writes_of_trace_after_load self w :
  writes_of (trace_after_load self w) = writes_of (trace w).
Proof.
  unfold trace_after_load. destruct (PyStr.truthy _); [reflexivity|].
  destruct (_ || _); [|reflexivity].
  now rewrite writes_of_snoc, app_nil_r.
Qed.

Lemma add_filters_none version l nl :
  (forall f, f ∈ l -> export_id f = false) -> add_filters version l nl = nl.
Proof.
  revert nl. induction l as [|f l IH]; intros nl Hnone; [reflexivity|].
  rewrite add_filters_cons, (Hnone f) by now left.
  apply IH. intros f' Hin. apply Hnone. now right.
Qed.

Lemma load_returns_unconfigured self w :
  PyStr.truthy (file (needs_config self)) = false -> load_returns self w = true.
Proof. intros Hfile. unfold load_returns. now rewrite Hfile. Qed.

(** The filters attached to the current version are the filters of the
    registry whose [export_id] is set, in the order of the registry, and
    no other. *)
Theorem NeedsBuilder_finish_exports_flagged_filters
    (filter_needs : NeedsSphinxConfig -> list NeedsInfoType -> string -> list NeedsInfoType)
    (self : BuilderObj) (e : BuildEnvironment) (w : World) :
  env self = Some e ->
  load_returns self w = true ->
  write_error w !! needs_json_path self = None ->
  exists d,
    file_doc (exec (NeedsBuilder_finish filter_needs self) w) (needs_json_path self) = Some d
    /\ ve_filters (NeedsListOps.entry_of (getattr_version (config e)) d)
       = List.filter export_id (values (get_or_create_filters e)).
Proof.
  intros Hbound Hload Herr.
  exists (needs_list (exported_needs_list filter_needs self e (loaded_needs_list self e w))).
  split.
  - unfold exec.
    rewrite (NeedsBuilder_finish_write_ok filter_needs self e Hbound w Hload Herr).
    unfold file_doc. simpl. now rewrite lookup_insert_eq.
  - now rewrite (exported_entry filter_needs self e).
Qed.

Lemma NeedsBuilder_finish_exports_flagged_filters_witness :
  exists d,
    file_doc (exec (NeedsBuilder_finish Demo.filter_needs (Demo.builder NeedsBuilder)) Demo.world)
      "_build/needs.json" = Some d
    /\ ve_filters (NeedsListOps.entry_of "1.0" d) = [Demo.F1].
Proof.
  apply (NeedsBuilder_finish_exports_flagged_filters Demo.filter_needs
           (Demo.builder NeedsBuilder) Demo.environment Demo.world).
  - reflexivity.
  - vm_compute. reflexivity.
  - vm_compute. reflexivity.
Defined.

(** With a needs file configured and loaded, what that file holds for
    every other version is carried over unchanged into the file written. *)
Theorem NeedsBuilder_finish_keeps_other_versions
    (filter_needs : NeedsSphinxConfig -> list NeedsInfoType -> string -> list NeedsInfoType)
    (self : BuilderObj) (e : BuildEnvironment) (w : World) (base : NeedsDoc) (v : string) :
  env self = Some e ->
  load_returns self w = true ->
  write_error w !! needs_json_path self = None ->
  PyStr.truthy (file (needs_config self)) = true ->
  file_doc w (os_path.join (srcdir self) (file (needs_config self))) = Some base ->
  v <> getattr_version (config e) ->
  file_version_entry (exec (NeedsBuilder_finish filter_needs self) w) (needs_json_path self) v
  = base !! v.
Proof.
  intros Hbound Hload Herr Hfile Hbase Hv.
  unfold exec. rewrite (NeedsBuilder_finish_write_ok filter_needs self e Hbound w Hload Herr).
  unfold file_version_entry, file_doc at 1. simpl. rewrite lookup_insert_eq. simpl.
  rewrite (exported_lookup_ne filter_needs self e) by exact Hv.
  unfold loaded_needs_list. now rewrite Hfile, Hbase.
Qed.

Lemma NeedsBuilder_finish_keeps_other_versions_witness :
  file_version_entry
    (exec (NeedsBuilder_finish Demo.filter_needs (Demo.builder NeedsBuilder)) Demo.world)
    "_build/needs.json" "0.9"
  = Some {| ve_needs := [Demo.R0]; ve_filters := [] |}.
Proof.
  etransitivity.
  - apply (NeedsBuilder_finish_keeps_other_versions Demo.filter_needs
             (Demo.builder NeedsBuilder) Demo.environment Demo.world Demo.old_doc "0.9").
    + reflexivity.
    + vm_compute. reflexivity.
    + vm_compute. reflexivity.
    + reflexivity.
    + vm_compute. reflexivity.
    + discriminate.
  - vm_compute. reflexivity.
Defined.

(** Without a configured needs file nothing is loaded: the file written
    holds the current version only, even when a [needs.json] lies in the
    source directory, and that unused file is then noted in the log. *)
Theorem NeedsBuilder_finish_without_needs_file
    (filter_needs : NeedsSphinxConfig -> list NeedsInfoType -> string -> list NeedsInfoType)
    (self : BuilderObj) (e : BuildEnvironment) (w : World) :
  env self = Some e ->
  write_error w !! needs_json_path self = None ->
  PyStr.truthy (file (needs_config self)) = false ->
  let w' := exec (NeedsBuilder_finish filter_needs self) w in
  (forall v, v <> getattr_version (config e) ->
             file_version_entry w' (needs_json_path self) v = None)
  /\ (path_exists w (os_path.join (srcdir self) "needs.json") ->
      logs_of (trace w')
      = (logs_of (trace w)
         ++ [(INFO, unused_needs_json_note); (INFO, export_success_note)])%list)
  /\ (~ path_exists w (os_path.join (srcdir self) "needs.json") ->
      logs_of (trace w') = (logs_of (trace w) ++ [(INFO, export_success_note)])%list).
Proof.
  intros Hbound Herr Hfile w'. unfold w', exec.
  rewrite (NeedsBuilder_finish_write_ok filter_needs self e Hbound w
             (load_returns_unconfigured self w Hfile) Herr).
  split; [|split].
  - intros v Hv. unfold file_version_entry, file_doc. simpl.
    rewrite lookup_insert_eq. simpl.
    rewrite (exported_lookup_ne filter_needs self e) by exact Hv.
    unfold loaded_needs_list. rewrite Hfile. apply lookup_empty.
  - intros Hex. apply path_exists_decide in Hex. simpl.
    rewrite !logs_of_snoc, app_nil_r. unfold trace_after_load.
    rewrite Hfile, Hex, logs_of_snoc. now rewrite <- app_assoc.
  - intros Hex. simpl. rewrite !logs_of_snoc, app_nil_r. unfold trace_after_load.
    rewrite Hfile.
    destruct (bool_decide _ || bool_decide _) eqn:Hdec; [|reflexivity].
    apply path_exists_decide in Hdec. contradiction.
Qed.

Lemma NeedsBuilder_finish_without_needs_file_witness :
  let w' := exec (NeedsBuilder_finish Demo.filter_needs (Demo.plain_builder NeedsBuilder))
              Demo.world in
  file_version_entry w' "_build/needs.json" "0.9" = None
  /\ logs_of (trace w') = [(INFO, unused_needs_json_note); (INFO, export_success_note)].
Proof.
  destruct (NeedsBuilder_finish_without_needs_file Demo.filter_needs
              (Demo.plain_builder NeedsBuilder) (app_env Demo.quiet_app) Demo.world
              eq_refl eq_refl eq_refl) as (Hother & Hnote & _).
  split.
  - apply Hother. discriminate.
  - apply Hnote. right. vm_compute. eauto.
Defined.

(** [NeedsBuilder.finish] changes no file but the one it exports to, and
    creates no directory. *)
Theorem NeedsBuilder_finish_touches_one_file
    (filter_needs : NeedsSphinxConfig -> list NeedsInfoType -> string -> list NeedsInfoType)
    (self : BuilderObj) (e : BuildEnvironment) (w : World) :
  env self = Some e ->
  let w' := exec (NeedsBuilder_finish filter_needs self) w in
  (forall p, p <> needs_json_path self -> files w' !! p = files w !! p)
  /\ dirs w' = dirs w
  /\ (forall p c, (p, c) ∈ writes_of (trace w') ->
                  (p, c) ∈ writes_of (trace w) \/ p = needs_json_path self).
Proof.
  intros Hbound w'. split; [|split].
  - intros p Hp. unfold w'.
    rewrite (NeedsBuilder_finish_files filter_needs self e Hbound w).
    destruct (load_returns self w); [|reflexivity].
    destruct (write_error w !! needs_json_path self) as [f|].
    + destruct (fault_truncates f); [|reflexivity]. now rewrite lookup_insert_ne.
    + now rewrite lookup_insert_ne.
  - apply (NeedsBuilder_finish_dirs filter_needs self e Hbound).
  - intros p c. unfold w', exec. destruct (load_returns self w) eqn:Hload.
    + destruct (write_error w !! needs_json_path self) as [f|] eqn:Herr.
      * rewrite (NeedsBuilder_finish_write_fails filter_needs self e Hbound w f Hload Herr).
        simpl. rewrite writes_of_snoc, app_nil_r. unfold files_after_fault.
        destruct (fault_truncates f); simpl;
          rewrite writes_of_trace_after_load; now left.
      * rewrite (NeedsBuilder_finish_write_ok filter_needs self e Hbound w Hload Herr).
        simpl. rewrite !writes_of_snoc, app_nil_r, writes_of_trace_after_load.
        rewrite elem_of_app, list_elem_of_singleton. intros [Hin|Heq]; [now left|right].
        now inversion Heq.
    + destruct (NeedsBuilder_finish_load_fails filter_needs self e Hbound w Hload)
        as [ex ->]. now left.
Qed.

Lemma NeedsBuilder_finish_touches_one_file_witness :
  let w' := exec (NeedsBuilder_finish Demo.filter_needs (Demo.builder NeedsBuilder))
              Demo.world in
  files w' !! "docs/needs.json" = Some (JsonDoc Demo.old_doc) /\ dirs w' = dirs Demo.world.
Proof.
  destruct (NeedsBuilder_finish_touches_one_file Demo.filter_needs
              (Demo.builder NeedsBuilder) Demo.environment Demo.world eq_refl)
    as (Hfiles & Hdirs & _).
  split; [|exact Hdirs].
  etransitivity; [apply Hfiles; discriminate|]. vm_compute. reflexivity.
Defined.

(** An export in which no need survives the filter and no filter is
    flagged leaves the file without an entry for the current version,
    whatever was stored for it before. *)
Theorem NeedsBuilder_finish_empty_export_drops_version
    (filter_needs : NeedsSphinxConfig -> list NeedsInfoType -> string -> list NeedsInfoType)
    (self : BuilderObj) (e : BuildEnvironment) (w : World) :
  env self = Some e ->
  load_returns self w = true ->
  write_error w !! needs_json_path self = None ->
  filter_needs (needs_config self) (values (get_or_create_needs e))
    (builder_filter (needs_config self)) = [] ->
  (forall f, f ∈ values (get_or_create_filters e) -> export_id f = false) ->
  exists d,
    file_doc (exec (NeedsBuilder_finish filter_needs self) w) (needs_json_path self) = Some d
    /\ d !! getattr_version (config e) = None.
Proof.
  intros Hbound Hload Herr Hnone Hflags.
  exists (needs_list (exported_needs_list filter_needs self e (loaded_needs_list self e w))).
  split.
  - unfold exec.
    rewrite (NeedsBuilder_finish_write_ok filter_needs self e Hbound w Hload Herr).
    unfold file_doc. simpl. now rewrite lookup_insert_eq.
  - unfold exported_needs_list. rewrite Hnone, add_filters_none by exact Hflags.
    simpl. apply lookup_delete_eq.
Qed.

Lemma NeedsBuilder_finish_empty_export_drops_version_witness :
  exists d,
    file_doc (exec (NeedsBuilder_finish Demo.filter_needs Demo.emptied_builder) Demo.world)
      "_build/needs.json" = Some d
    /\ Demo.old_doc !! "1.0" = Some {| ve_needs := [Demo.R0; Demo.R1]; ve_filters := [] |}
    /\ d !! "1.0" = None.
Proof.
  destruct (NeedsBuilder_finish_empty_export_drops_version Demo.filter_needs
              Demo.emptied_builder Demo.locked_environment Demo.world
              eq_refl eq_refl eq_refl eq_refl) as (d & Hd & Hnone).
  - intros f Hf. now apply elem_of_nil in Hf.
  - exists d. split; [exact Hd|]. split; [vm_compute; reflexivity|exact Hnone].
Defined.

(** Once an export has written its file, exporting again, from any world
    that has the files the first run left, leaves every entry of that file
    as it is, unless the second write breaks off after the file has been
    opened: writes are not atomic, and the file is then left cut short,
    its entries lost. *)
Theorem NeedsBuilder_finish_reexport_keeps_entries
    (filter_needs : NeedsSphinxConfig -> list NeedsInfoType -> string -> list NeedsInfoType)
    (self : BuilderObj) (e : BuildEnvironment) (w w1 : World) (v : string) :
  env self = Some e ->
  load_returns self w = true ->
  write_error w !! needs_json_path self = None ->
  files w1 = files (exec (NeedsBuilder_finish filter_needs self) w) ->
  let w2 := exec (NeedsBuilder_finish filter_needs self) w1 in
  ((forall f, write_error w1 !! needs_json_path self = Some f -> fault_truncates f = false) ->
   file_version_entry w2 (needs_json_path self) v
   = file_version_entry (exec (NeedsBuilder_finish filter_needs self) w)
       (needs_json_path self) v)
  /\ (forall f, write_error w1 !! needs_json_path self = Some f ->
                fault_truncates f = true ->
                load_returns self w1 = true ->
                files w2 !! needs_json_path self = Some Partial
                /\ file_version_entry w2 (needs_json_path self) v = None).
Proof.
  intros Hbound Hload Herr Hfiles w2.
  pose proof (NeedsBuilder_finish_files filter_needs self e Hbound w) as Hfirst.
  rewrite Hload, Herr in Hfirst. rewrite Hfirst in Hfiles.
  pose proof (NeedsBuilder_finish_files filter_needs self e Hbound w1) as Hsecond.
  fold w2 in Hsecond.
  split.
  - intros Hkeeps. unfold file_version_entry, file_doc. rewrite Hsecond, Hfirst.
    destruct (load_returns self w1); [|now rewrite Hfiles].
    destruct (write_error w1 !! needs_json_path self) as [f|] eqn:Herr1.
    + rewrite (Hkeeps f eq_refl). now rewrite Hfiles.
    + rewrite (exported_again filter_needs self e w w1 Hfiles).
      now rewrite !lookup_insert_eq.
  - intros f Herr1 Htrunc Hload1. rewrite Hload1, Herr1, Htrunc in Hsecond.
    unfold file_version_entry, file_doc. rewrite Hsecond, lookup_insert_eq.
    now split.
Qed.

Lemma NeedsBuilder_finish_reexport_keeps_entries_witness :
  let w1 := exec (NeedsBuilder_finish Demo.filter_needs (Demo.in_place Demo.environment))
              Demo.world in
  let refused_again :=
    {| files := files w1; dirs := {[ "docs" ]};
       write_error := {[ "docs/needs.json" := refused "Read-only file system" ]};
       makedirs_error := ∅; trace := [] |} in
  let broken_again :=
    {| files := files w1; dirs := {[ "docs" ]};
       write_error := {[ "docs/needs.json" := broken_off ClassOSError "No space left on device" ]};
       makedirs_error := ∅; trace := [] |} in
  file_version_entry
    (exec (NeedsBuilder_finish Demo.filter_needs (Demo.in_place Demo.environment))
       refused_again) "docs/needs.json" "1.0"
  = file_version_entry w1 "docs/needs.json" "1.0"
  /\ files (exec (NeedsBuilder_finish Demo.filter_needs (Demo.in_place Demo.environment))
              broken_again) !! "docs/needs.json" = Some Partial.
Proof.
  intros w1 refused_again broken_again. split.
  - apply (proj1 (NeedsBuilder_finish_reexport_keeps_entries Demo.filter_needs
                    (Demo.in_place Demo.environment) Demo.environment Demo.world
                    refused_again "1.0" eq_refl eq_refl eq_refl eq_refl)).
    intros f Hf. vm_compute in Hf. injection Hf as <-. reflexivity.
  - apply (proj2 (NeedsBuilder_finish_reexport_keeps_entries Demo.filter_needs
                    (Demo.in_place Demo.environment) Demo.environment Demo.world
                    broken_again "1.0" eq_refl eq_refl eq_refl eq_refl)
             (broken_off ClassOSError "No space left on device")).
    + vm_compute. reflexivity.
    + reflexivity.
    + vm_compute. reflexivity.
Defined.

(** ** Further properties of the hooks *)

Lemma build_needs_json_cases
    (filter_needs : NeedsSphinxConfig -> list NeedsInfoType -> string -> list NeedsInfoType)
    (app : Sphinx) (_exception : option exn) (w : World) :
  build_needs_json filter_needs app _exception w
  = if negb (build_json (needs_options (config (app_env app)))) then (Ok tt, w)
    else if isinstance (app_builder app) NeedsBuilder then (Ok tt, w)
    else NeedsBuilder_finish filter_needs (secondary_builder NeedsBuilder app) w.
Proof.
  unfold build_needs_json.
  destruct (negb _); [reflexivity|]. destruct (isinstance _ _); [reflexivity|].
  unfold bind at 1. now rewrite secondary_builder_constructed.
Qed.

Lemma build_needs_id_json_cases
    (filter_needs : NeedsSphinxConfig -> list NeedsInfoType -> string -> list NeedsInfoType)
    (app : Sphinx) (_exception : option exn) (w : World) :
  build_needs_id_json filter_needs app _exception w
  = if negb (build_json_per_id (needs_options (config (app_env app)))) then (Ok tt, w)
    else if isinstance (app_builder app) NeedsIdBuilder then (Ok tt, w)
    else NeedsIdBuilder_finish filter_needs (secondary_builder NeedsIdBuilder app) w.
Proof.
  unfold build_needs_id_json.
  destruct (negb _); [reflexivity|]. destruct (isinstance _ _); [reflexivity|].
  unfold bind at 1. now rewrite secondary_builder_constructed.
Qed.

Lemma build_needumls_pumls_cases
    (filter_needs : NeedsSphinxConfig -> list NeedsInfoType -> string -> list NeedsInfoType)
    (app : Sphinx) (_exception : option exn) (w : World) :
  build_needumls_pumls filter_needs app _exception w
  = if negb (PyStr.truthy (build_needumls (needs_options (config (app_env app)))))
    then (Ok tt, w)
    else if isinstance (app_builder app) NeedumlsBuilder then (Ok tt, w)
    else NeedumlsBuilder_finish
           (set_outdir (secondary_builder NeedumlsBuilder app)
              (os_path.join (app_outdir app)
                 (build_needumls (needs_options (config (app_env app)))))) w.
Proof.
  unfold build_needumls_pumls.
  destruct (negb _); [reflexivity|]. destruct (isinstance _ _); [reflexivity|].
  unfold bind at 1, Builder_init.
  destruct (5 <=? version_info0 app)%nat; reflexivity.
Qed.

(** The hook [build_needs_json] returns normally whenever the needs file
    can be read (or none is configured), whatever the write does: the
    write is inside the [try].  Loading the needs file is not: when the
    hook is enabled and that file cannot be read, the error goes out of
    the hook, and nothing has been written or logged. *)
Theorem build_needs_json_raises_only_from_load
    (filter_needs : NeedsSphinxConfig -> list NeedsInfoType -> string -> list NeedsInfoType)
    (app : Sphinx) (_exception : option exn) (w : World) :
  (load_returns (secondary_builder NeedsBuilder app) w = true ->
   outcome (build_needs_json filter_needs app _exception) w = Ok tt)
  /\ (build_json (needs_options (config (app_env app))) = true ->
      isinstance (app_builder app) NeedsBuilder = false ->
      load_returns (secondary_builder NeedsBuilder app) w = false ->
      exists ex, build_needs_json filter_needs app _exception w = (Raise ex, w)).
Proof.
  split.
  - intros Hload. unfold outcome. rewrite build_needs_json_cases.
    destruct (negb _); [reflexivity|]. destruct (isinstance _ _); [reflexivity|].
    now apply (NeedsBuilder_finish_outcome filter_needs _ (app_env app)).
  - intros Hflag Hinst Hload. rewrite build_needs_json_cases, Hflag, Hinst. cbn [negb].
    now apply (NeedsBuilder_finish_load_fails filter_needs _ (app_env app)).
Qed.

Lemma build_needs_json_raises_only_from_load_witness :
  outcome (build_needs_json Demo.filter_needs (Demo.app Demo.html 7) None)
    Demo.serialization_world = Ok tt
  /\ exists ex, build_needs_json Demo.filter_needs (Demo.app Demo.html 7) None
                  Demo.directory_world = (Raise ex, Demo.directory_world).
Proof.
  split.
  - apply (proj1 (build_needs_json_raises_only_from_load Demo.filter_needs
                    (Demo.app Demo.html 7) None Demo.serialization_world)).
    vm_compute. reflexivity.
  - apply (proj2 (build_needs_json_raises_only_from_load Demo.filter_needs
                    (Demo.app Demo.html 7) None Demo.directory_world)).
    + reflexivity.
    + reflexivity.
    + vm_compute. reflexivity.
Defined.


(** ** Further properties of [NeedsIdBuilder.finish] *)

Lemma string_length_app a s : String.length (a +:+ s) = String.length a + String.length s.
Proof. induction a as [|c a IH]; simpl; [reflexivity|now rewrite IH]. Qed.

Lemma string_app_cancel_l a x y : a +:+ x = a +:+ y -> x = y.
Proof.
  induction a as [|c a IH]; simpl; intros H; [exact H|].
  apply IH. now inversion H.
Qed.

Lemma string_app_cancel_r s a b : a +:+ s = b +:+ s -> a = b.
Proof.
  revert b. induction a as [|c a IH]; intros [|c' b] H.
  - reflexivity.
  - apply (f_equal String.length) in H. rewrite !string_length_app in H.
    simpl in H. lia.
  - apply (f_equal String.length) in H. rewrite !string_length_app in H.
    simpl in H. lia.
  - change (String c (a +:+ s) = String c' (b +:+ s)) in H.
    inversion H as [[Hc Happ]]. f_equal. now apply IH.
Qed.

Lemma startswith_sep_app_json s :
  PyStr.startswith_sep (s +:+ ".json") = PyStr.startswith_sep s.
Proof. now destruct s. Qed.

(** For relative second arguments, [os.path.join] is one-to-one. *)
Lemma join_relative_inj d x y :
  PyStr.startswith_sep x = false -> PyStr.startswith_sep y = false ->
  os_path.join d x = os_path.join d y -> x = y.
Proof.
  intros Hx Hy. unfold os_path.join. rewrite Hx, Hy.
  destruct (negb (PyStr.truthy d) || PyStr.endswith_sep d); intros H.
  - now apply string_app_cancel_l in H.
  - apply string_app_cancel_l in H. now inversion H.
Qed.

(** Needs with different ids that do not begin with a separator are
    written to different files. *)
Lemma need_json_path_inj self n1 n2 :
  PyStr.startswith_sep (need_id n1) = false ->
  PyStr.startswith_sep (need_id n2) = false ->
  need_json_path self n1 = need_json_path self n2 -> need_id n1 = need_id n2.
Proof.
  intros H1 H2 Hpath. unfold need_json_path in Hpath.
  apply join_relative_inj in Hpath; [|now rewrite startswith_sep_app_json..].
  now apply string_app_cancel_r in Hpath.
Qed.

Lemma NoDup_map_eq {A B} (f : A -> B) (l : list A) x y :
  NoDup (map f l) -> x ∈ l -> y ∈ l -> f x = f y -> x = y.
Proof.
  induction l as [|a l IH]; simpl; intros Hnd Hx Hy Hf.
  - now apply elem_of_nil in Hx.
  - apply NoDup_cons in Hnd as [Hnotin Hnd].
    apply elem_of_cons in Hx as [->|Hx]; apply elem_of_cons in Hy as [->|Hy].
    + reflexivity.
    + exfalso. apply Hnotin. rewrite Hf. now apply (list_elem_of_fmap_2 f).
    + exfalso. apply Hnotin. rewrite <- Hf. now apply (list_elem_of_fmap_2 f).
    + now apply IH.
Qed.

Lemma need_id_events_writes self version w l :
  writes_of (map (need_id_event self version w) l)
  = map (fun n => (need_json_path self n, JsonDoc (single_need_doc version n)))
      (List.filter (need_write_permitted self w) l).
Proof.
  induction l as [|n l IH]; [reflexivity|]. simpl.
  unfold need_id_event at 1, need_write_permitted at 1.
  destruct (write_error w !! need_json_path self n) eqn:Herr; simpl.
  - exact IH.
  - now rewrite IH.
Qed.

Lemma logs_of_cons ev t :
  logs_of (ev :: t)
  = match ev with EvLog l m => (l, m) :: logs_of t | _ => logs_of t end.
Proof. now destruct ev. Qed.

Lemma need_id_events_logs self version w l :
  logs_of (map (need_id_event self version w) l) = omap (need_error_record self w) l.
Proof.
  induction l as [|n l IH]; [reflexivity|].
  change (map (need_id_event self version w) (n :: l))
    with (need_id_event self version w n :: map (need_id_event self version w) l).
  change (omap (need_error_record self w) (n :: l))
    with (match need_error_record self w n with
          | Some y => y :: omap (need_error_record self w) l
          | None => omap (need_error_record self w) l
          end).
  rewrite logs_of_cons, IH. unfold need_id_event, need_error_record.
  now destruct (write_error w !! need_json_path self n).
Qed.

Lemma need_id_step_extends self version need w :
  extends w (need_id_step self version need w).
Proof.
  unfold need_id_step. destruct (write_error w !! _) as [f|].
  - eapply extends_trans; [|apply add_event_extends].
    destruct (fault_truncates f); [apply write_extends|apply extends_refl].
  - eapply extends_trans; [apply write_extends|apply add_event_extends].
Qed.

Lemma need_id_steps_extends self version l w :
  extends w (need_id_steps self version l w).
Proof.
  revert w. induction l as [|n l IH]; intros w; [apply extends_refl|].
  change (need_id_steps self version (n :: l) w)
    with (need_id_steps self version l (need_id_step self version n w)).
  eapply extends_trans; [apply need_id_step_extends|apply IH].
Qed.

Lemma need_id_steps_dirs self version l w :
  dirs (need_id_steps self version l w) = dirs w.
Proof.
  revert w. induction l as [|n l IH]; intros w; [reflexivity|].
  change (need_id_steps self version (n :: l) w)
    with (need_id_steps self version l (need_id_step self version n w)).
  rewrite IH. unfold need_id_step.
  destruct (write_error w !! _) as [f|]; [|reflexivity].
  now destruct (fault_truncates f).
Qed.

Lemma need_id_steps_files_other self version l w p :
  (forall n, n ∈ l -> need_json_path self n <> p) ->
  files (need_id_steps self version l w) !! p = files w !! p.
Proof.
  revert w. induction l as [|n l IH]; intros w Hother; [reflexivity|].
  change (need_id_steps self version (n :: l) w)
    with (need_id_steps self version l (need_id_step self version n w)).
  rewrite IH by (intros n' Hin; apply Hother; now right).
  unfold need_id_step. destruct (write_error w !! _) as [f|]; simpl.
  - destruct (fault_truncates f); [|reflexivity]. simpl.
    apply lookup_insert_ne, Hother. now left.
  - apply lookup_insert_ne, Hother. now left.
Qed.

(** When the directory of the per-need files is missing and cannot be
    created, the error of [os.makedirs] is not caught: [finish] raises it,
    and has written and logged nothing. *)
Theorem NeedsIdBuilder_finish_makedirs_error_propagates
    (filter_needs : NeedsSphinxConfig -> list NeedsInfoType -> string -> list NeedsInfoType)
    (self : BuilderObj) (e : BuildEnvironment) (w : World) (msg : string) :
  env self = Some e ->
  ~ path_exists w (needs_id_dir self) ->
  makedirs_error w !! needs_id_dir self = Some msg ->
  NeedsIdBuilder_finish filter_needs self w = (Raise (OSError msg), w).
Proof.
  intros Hbound Hmissing Herr. unfold NeedsIdBuilder_finish, self_env. rewrite Hbound.
  unfold bind at 1. unfold ret at 1.
  change (os_path.join (outdir self) (build_json_per_id_path (needs_config self)))
    with (needs_id_dir self).
  unfold bind, os_path_exists.
  destruct (bool_decide (needs_id_dir self ∈ dirs w)
            || bool_decide (is_Some (files w !! needs_id_dir self))) eqn:Hex.
  - apply path_exists_decide in Hex. contradiction.
  - simpl. unfold os_makedirs. now rewrite Herr.
Qed.

Lemma NeedsIdBuilder_finish_makedirs_error_propagates_witness :
  NeedsIdBuilder_finish Demo.filter_needs (Demo.builder NeedsIdBuilder) Demo.no_mkdir_world
  = (Raise (OSError "Permission denied"), Demo.no_mkdir_world).
Proof.
  apply (NeedsIdBuilder_finish_makedirs_error_propagates Demo.filter_needs
           (Demo.builder NeedsIdBuilder) Demo.environment Demo.no_mkdir_world).
  - reflexivity.
  - intros Hex. apply path_exists_decide in Hex. vm_compute in Hex. discriminate Hex.
  - vm_compute. reflexivity.
Defined.

(** [NeedsIdBuilder.finish] writes one file for each surviving need whose
    file can be written, in the order of the needs, and no other; it logs
    one error for each of the others, and then the success message, which
    it logs however many writes have failed. *)
Theorem NeedsIdBuilder_finish_writes_and_logs
    (filter_needs : NeedsSphinxConfig -> list NeedsInfoType -> string -> list NeedsInfoType)
    (self : BuilderObj) (e : BuildEnvironment) (w : World) :
  env self = Some e ->
  can_ensure_dir (needs_id_dir self) w ->
  let version := getattr_version (config e) in
  let filtered := filter_needs (needs_config self) (values (get_or_create_needs e))
                    (builder_filter (needs_config self)) in
  let w' := exec (NeedsIdBuilder_finish filter_needs self) w in
  writes_of (trace w')
  = (writes_of (trace w)
     ++ map (fun n => (need_json_path self n, JsonDoc (single_need_doc version n)))
          (List.filter (need_write_permitted self w) filtered))%list
  /\ logs_of (trace w')
     = (logs_of (trace w) ++ omap (need_error_record self w) filtered
        ++ [(INFO, "Needs_id successfully exported")])%list.
Proof.
  intros Hbound Hcan version filtered w'. unfold w', exec.
  rewrite (NeedsIdBuilder_finish_eq filter_needs self e Hbound w Hcan). simpl.
  rewrite (need_id_steps_trace self e _ _ w) by apply ensure_dir_write_error.
  split.
  - rewrite writes_of_snoc, app_nil_r. unfold writes_of at 1. rewrite omap_app.
    fold (writes_of (trace (ensure_dir (needs_id_dir self) w))).
    fold (writes_of (map (need_id_event self (getattr_version (config e)) w)
                       (filter_needs (needs_config self) (values (get_or_create_needs e))
                          (builder_filter (needs_config self))))).
    now rewrite ensure_dir_writes, need_id_events_writes.
  - rewrite logs_of_snoc. unfold logs_of at 1. rewrite omap_app.
    fold (logs_of (trace (ensure_dir (needs_id_dir self) w))).
    fold (logs_of (map (need_id_event self (getattr_version (config e)) w)
                     (filter_needs (needs_config self) (values (get_or_create_needs e))
                        (builder_filter (needs_config self))))).
    rewrite ensure_dir_logs, need_id_events_logs. now rewrite <- app_assoc.
Qed.

Lemma NeedsIdBuilder_finish_writes_and_logs_witness :
  let w' := exec (NeedsIdBuilder_finish Demo.filter_needs (Demo.builder NeedsIdBuilder))
              Demo.refusing_world in
  writes_of (trace w') = []
  /\ logs_of (trace w')
     = [(ERROR, "Needs-ID Builder R1 error: Read-only file system");
        (ERROR, "Needs-ID Builder R2 error: Read-only file system");
        (INFO, "Needs_id successfully exported")].
Proof.
  assert (Hdir : can_ensure_dir "_build/needs_id" Demo.refusing_world)
    by (right; reflexivity).
  destruct (NeedsIdBuilder_finish_writes_and_logs Demo.filter_needs
              (Demo.builder NeedsIdBuilder) Demo.environment Demo.refusing_world
              eq_refl Hdir) as [Hwrites Hlogs].
  split.
  - etransitivity; [exact Hwrites|]. vm_compute. reflexivity.
  - etransitivity; [exact Hlogs|]. vm_compute. reflexivity.
Defined.

Lemma string_app_assoc a b c : (a +:+ b) +:+ c = a +:+ b +:+ c.
Proof.
  induction a as [|x a IH]; [reflexivity|].
  change (String x ((a +:+ b) +:+ c) = String x (a +:+ b +:+ c)). now rewrite IH.
Qed.

Lemma no_sep_relative s : PyStr.no_sep s = true -> PyStr.startswith_sep s = false.
Proof.
  destruct s as [|c s]; [reflexivity|]. unfold PyStr.no_sep. simpl.
  intros H. apply andb_true_iff in H as [Hc _]. now apply negb_true_iff in Hc.
Qed.

(** When the surviving needs have pairwise different ids, none of them
    with a separator in it, their files are pairwise different names in
    the one directory of the per-need files, so at the end the file of
    every need that could be written holds that need. *)
Theorem NeedsIdBuilder_finish_distinct_ids_own_files
    (filter_needs : NeedsSphinxConfig -> list NeedsInfoType -> string -> list NeedsInfoType)
    (self : BuilderObj) (e : BuildEnvironment) (w : World) (R : NeedsInfoType) :
  env self = Some e ->
  can_ensure_dir (needs_id_dir self) w ->
  let filtered := filter_needs (needs_config self) (values (get_or_create_needs e))
                    (builder_filter (needs_config self)) in
  NoDup (map need_id filtered) ->
  (forall n, n ∈ filtered -> PyStr.no_sep (need_id n) = true) ->
  R ∈ filtered ->
  write_error w !! need_json_path self R = None ->
  (exists prefix, forall n, n ∈ filtered ->
                            need_json_path self n = prefix +:+ need_id n +:+ ".json")
  /\ files (exec (NeedsIdBuilder_finish filter_needs self) w) !! need_json_path self R
     = Some (JsonDoc (single_need_doc (getattr_version (config e)) R)).
Proof.
  intros Hbound Hcan filtered Hnodup Hrel Hin Herr. split.
  - exists (if negb (PyStr.truthy (needs_id_dir self)) || PyStr.endswith_sep (needs_id_dir self)
            then needs_id_dir self else needs_id_dir self +:+ "/").
    intros n Hn. unfold need_json_path, os_path.join.
    rewrite startswith_sep_app_json, (no_sep_relative _ (Hrel n Hn)).
    destruct (negb _ || _); [reflexivity|].
    symmetry. apply string_app_assoc.
  - unfold exec.
    rewrite (NeedsIdBuilder_finish_eq filter_needs self e Hbound w Hcan). simpl.
    apply (need_id_steps_files self e).
    + now rewrite ensure_dir_write_error.
    + intros R' Hin' Hpath.
      apply (NoDup_map_eq need_id filtered); try assumption.
      apply (need_json_path_inj self); auto using no_sep_relative.
    + now left.
Qed.

Lemma NeedsIdBuilder_finish_distinct_ids_own_files_witness :
  files (exec (NeedsIdBuilder_finish Demo.filter_needs (Demo.builder NeedsIdBuilder))
           Demo.world) !! "_build/needs_id/R2.json"
  = Some (JsonDoc (single_need_doc "1.0" Demo.R2)).
Proof.
  apply (fun Hb Hc Hn Hs Hi He =>
           proj2 (NeedsIdBuilder_finish_distinct_ids_own_files Demo.filter_needs
                    (Demo.builder NeedsIdBuilder) Demo.environment Demo.world Demo.R2
                    Hb Hc Hn Hs Hi He)).
  - reflexivity.
  - right. reflexivity.
  - apply NoDup_cons. split; [|apply NoDup_singleton].
    rewrite list_elem_of_singleton. discriminate.
  - intros n Hn. apply elem_of_cons in Hn as [->|Hn]; [reflexivity|].
    apply list_elem_of_singleton in Hn as ->. reflexivity.
  - right. left.
  - vm_compute. reflexivity.
Defined.

(** After [NeedsIdBuilder.finish] the directory of the per-need files is
    there; it is created only when it was missing; and no file is changed
    but the files of the surviving needs. *)
Theorem NeedsIdBuilder_finish_output_directory
    (filter_needs : NeedsSphinxConfig -> list NeedsInfoType -> string -> list NeedsInfoType)
    (self : BuilderObj) (e : BuildEnvironment) (w : World) :
  env self = Some e ->
  can_ensure_dir (needs_id_dir self) w ->
  let filtered := filter_needs (needs_config self) (values (get_or_create_needs e))
                    (builder_filter (needs_config self)) in
  let w' := exec (NeedsIdBuilder_finish filter_needs self) w in
  path_exists w' (needs_id_dir self)
  /\ (path_exists w (needs_id_dir self) -> dirs w' = dirs w)
  /\ (forall p, (forall n, n ∈ filtered -> need_json_path self n <> p) ->
                files w' !! p = files w !! p).
Proof.
  intros Hbound Hcan filtered w'. unfold w', exec.
  rewrite (NeedsIdBuilder_finish_eq filter_needs self e Hbound w Hcan). simpl.
  split; [|split].
  - apply (add_event_extends _ _), (need_id_steps_extends self _ _ _), ensure_dir_exists.
  - intros Hex. rewrite need_id_steps_dirs. unfold ensure_dir.
    apply path_exists_decide in Hex. now rewrite Hex.
  - intros p Hother. rewrite need_id_steps_files_other by exact Hother.
    now rewrite ensure_dir_files.
Qed.

Lemma NeedsIdBuilder_finish_output_directory_witness :
  let w' := exec (NeedsIdBuilder_finish Demo.filter_needs (Demo.builder NeedsIdBuilder))
              Demo.world in
  path_exists w' "_build/needs_id"
  /\ files w' !! "docs/needs.json" = Some (JsonDoc Demo.old_doc).
Proof.
  assert (Hdir : can_ensure_dir "_build/needs_id" Demo.world) by (right; reflexivity).
  destruct (NeedsIdBuilder_finish_output_directory Demo.filter_needs
              (Demo.builder NeedsIdBuilder) Demo.environment Demo.world eq_refl Hdir)
    as (Hex & _ & Hframe).
  split; [exact Hex|].
  etransitivity.
  - apply Hframe. intros n Hn.
    apply elem_of_cons in Hn as [->|Hn]; [vm_compute; discriminate|].
    apply list_elem_of_singleton in Hn as ->. vm_compute. discriminate.
  - vm_compute. reflexivity.
Defined.


(** ** Further properties of [NeedumlsBuilder.finish] *)

Lemma needuml_steps_app self l1 l2 w :
  needuml_steps self (l1 ++ l2) w = needuml_steps self l2 (needuml_steps self l1 w).
Proof. unfold needuml_steps. apply fold_left_app. Qed.

Lemma needuml_steps_unset self l w :
  (forall u, u ∈ l -> save_is_set u = false) -> needuml_steps self l w = w.
Proof.
  revert w. induction l as [|u l IH]; intros w Hunset; [reflexivity|].
  rewrite needuml_steps_cons. unfold needuml_step.
  rewrite (Hunset u) by now left.
  apply IH. intros u' Hin. apply Hunset. now right.
Qed.

Lemma NeedumlsBuilder_finish_loop self e w :
  env self = Some e ->
  NeedumlsBuilder_finish self w
  = for_each (values (get_or_create_umls e)) (needuml_body self) w.
Proof.
  intros Hbound. unfold NeedumlsBuilder_finish, self_env. rewrite Hbound. reflexivity.
Qed.

(** An iteration whose write fails: the directory is there and the
    destination is announced in the log before the error is raised. *)
Lemma needuml_body_write_fails self u w f :
  save_is_set u = true ->
  can_ensure_dir (os_path.dirname (needuml_path self u)) w ->
  write_error w !! needuml_path self u = Some f ->
  needuml_body self u w
  = (Raise (fault_exn f),
     files_after_fault f (needuml_path self u)
       (add_event (EvLog INFO (needuml_message self u))
          (ensure_dir (os_path.dirname (needuml_path self u)) w))).
Proof.
  intros Hset Hdir Herr. unfold needuml_body. rewrite Hset.
  change (os_path.join (outdir self) (save_path_of u)) with (needuml_path self u).
  pose proof (ensure_dir_run _ w Hdir) as Hrun.
  unfold bind in *.
  destruct (os_path_exists (os_path.dirname (needuml_path self u)) w)
    as [[found|ex] w1]; [|discriminate].
  rewrite Hrun. unfold log_info, emit, open_write.
  fold (needuml_message self u). simpl.
  pose proof (ensure_dir_extends (os_path.dirname (needuml_path self u)) w) as (Hw & _).
  now rewrite Hw, Herr.
Qed.

(** [NeedumlsBuilder.finish] has no handler around its write.  At the
    first diagram whose file cannot be written it raises that error,
    whatever its class: the diagrams before it are stored, its own
    destination has been announced in the log, and the diagrams after it
    are not stored. *)
Theorem NeedumlsBuilder_finish_stops_at_write_error
    (self : BuilderObj) (e : BuildEnvironment) (w : World)
    (pre post : list NeedsUmlType) (u : NeedsUmlType) (f : WriteFault) :
  env self = Some e ->
  values (get_or_create_umls e) = (pre ++ u :: post)%list ->
  (forall x, x ∈ pre -> needuml_ready self w x) ->
  save_is_set u = true ->
  can_ensure_dir (os_path.dirname (needuml_path self u)) w ->
  write_error w !! needuml_path self u = Some f ->
  let w' := exec (NeedumlsBuilder_finish self) w in
  outcome (NeedumlsBuilder_finish self) w = Raise (fault_exn f)
  /\ writes_of (trace w')
     = (writes_of (trace w)
        ++ map (fun x => (needuml_path self x, Text (content_calculated x)))
             (List.filter save_is_set pre))%list
  /\ last (logs_of (trace w')) = Some (INFO, needuml_message self u).
Proof.
  intros Hbound Humls Hready Hset Hdir Herr w'.
  assert (Hrun : NeedumlsBuilder_finish self w
                 = (Raise (fault_exn f),
                    files_after_fault f (needuml_path self u)
                      (add_event (EvLog INFO (needuml_message self u))
                         (ensure_dir (os_path.dirname (needuml_path self u))
                            (needuml_steps self pre w))))).
  { rewrite (NeedumlsBuilder_finish_loop self e w Hbound), Humls, for_each_app.
    unfold bind at 1. rewrite (needuml_loop_eq self pre w Hready).
    simpl. unfold bind.
    pose proof (needuml_steps_extends self pre w) as Hext.
    rewrite (needuml_body_write_fails self u _ f Hset).
    - reflexivity.
    - now apply (can_ensure_dir_extends _ w).
    - destruct Hext as (Hw & _). now rewrite Hw. }
  unfold w', outcome, exec. rewrite Hrun. simpl.
  assert (Htrace : trace (files_after_fault f (needuml_path self u)
                            (add_event (EvLog INFO (needuml_message self u))
                               (ensure_dir (os_path.dirname (needuml_path self u))
                                  (needuml_steps self pre w))))
                   = (trace (ensure_dir (os_path.dirname (needuml_path self u))
                               (needuml_steps self pre w))
                      ++ [EvLog INFO (needuml_message self u)])%list).
  { unfold files_after_fault. now destruct (fault_truncates f). }
  rewrite Htrace.
  split; [reflexivity|]. split.
  - now rewrite writes_of_snoc, app_nil_r, ensure_dir_writes, needuml_steps_writes.
  - rewrite logs_of_snoc. apply last_snoc.
Qed.

Lemma NeedumlsBuilder_finish_stops_at_write_error_witness :
  let w' := exec (NeedumlsBuilder_finish Demo.locked_builder) Demo.locked_world in
  outcome (NeedumlsBuilder_finish Demo.locked_builder) Demo.locked_world
  = Raise (OSError "Permission denied")
  /\ writes_of (trace w') = []
  /\ last (logs_of (trace w'))
     = Some (INFO, "Storing needuml data to file _build/locked.puml.").
Proof.
  apply (NeedumlsBuilder_finish_stops_at_write_error Demo.locked_builder
           Demo.locked_environment Demo.locked_world [] [Demo.U1] Demo.U3
           (refused "Permission denied")).
  - reflexivity.
  - reflexivity.
  - intros x Hx. now apply elem_of_nil in Hx.
  - reflexivity.
  - left. left. vm_compute. reflexivity.
  - vm_compute. reflexivity.
Defined.

(** When two diagram records have the same destination, the file holds
    the content of the later one at the end. *)
Theorem NeedumlsBuilder_finish_last_record_wins
    (self : BuilderObj) (e : BuildEnvironment) (w : World)
    (pre post : list NeedsUmlType) (u : NeedsUmlType) :
  env self = Some e ->
  values (get_or_create_umls e) = (pre ++ u :: post)%list ->
  (forall x, x ∈ values (get_or_create_umls e) -> needuml_ready self w x) ->
  save_is_set u = true ->
  (forall x, x ∈ post -> save_is_set x = true ->
             needuml_path self x <> needuml_path self u) ->
  files (exec (NeedumlsBuilder_finish self) w) !! needuml_path self u
  = Some (Text (content_calculated u)).
Proof.
  intros Hbound Humls Hready Hset Hlater. unfold exec.
  rewrite (NeedumlsBuilder_finish_loop self e w Hbound).
  rewrite (needuml_loop_eq self _ w Hready), Humls. simpl.
  rewrite needuml_steps_app, needuml_steps_cons.
  rewrite needuml_steps_files_other by exact Hlater.
  unfold needuml_step. rewrite Hset. simpl. apply lookup_insert_eq.
Qed.

Lemma NeedumlsBuilder_finish_last_record_wins_witness :
  files (exec (NeedumlsBuilder_finish Demo.diagrams_builder) Demo.empty_world)
    !! "_build/sub/dir/out.puml"
  = Some (Text "@startuml second").
Proof.
  apply (NeedumlsBuilder_finish_last_record_wins Demo.diagrams_builder
           Demo.diagrams_environment Demo.empty_world
           [Demo.U1; Demo.U2] [Demo.U5] Demo.U4).
  - reflexivity.
  - reflexivity.
  - intros x Hx Hset. split; [right; reflexivity|reflexivity].
  - reflexivity.
  - intros x Hx _. apply list_elem_of_singleton in Hx as ->. vm_compute. discriminate.
Defined.

(** With no diagram to save (an empty registry, or no record with [save]
    set) [NeedumlsBuilder.finish] returns and leaves the world as it is:
    no file, no directory, no log record. *)
Theorem NeedumlsBuilder_finish_nothing_to_save
    (self : BuilderObj) (e : BuildEnvironment) (w : World) :
  env self = Some e ->
  (forall u, u ∈ values (get_or_create_umls e) -> save_is_set u = false) ->
  NeedumlsBuilder_finish self w = (Ok tt, w).
Proof.
  intros Hbound Hunset.
  rewrite (NeedumlsBuilder_finish_loop self e w Hbound), needuml_loop_eq.
  - now rewrite needuml_steps_unset.
  - intros u Hin Hset. rewrite (Hunset u Hin) in Hset. discriminate Hset.
Qed.

Lemma NeedumlsBuilder_finish_nothing_to_save_witness :
  NeedumlsBuilder_finish
    {| cls := NeedumlsBuilder; b_config := Demo.conf;
       env := Some Demo.environment_without_R2; outdir := "_build"; srcdir := "docs" |}
    Demo.refusing_world
  = (Ok tt, Demo.refusing_world).
Proof.
  apply (NeedumlsBuilder_finish_nothing_to_save _ Demo.environment_without_R2).
  - reflexivity.
  - intros u Hu. now apply elem_of_nil in Hu.
Defined.

(** A [save] path is joined to the output directory as [os.path.join]
    does: a relative path is stored below the output directory, an
    absolute one is stored at that very path, wherever the output
    directory is. *)
Theorem NeedumlsBuilder_finish_save_path_destination
    (self : BuilderObj) (e : BuildEnvironment) (w : World)
    (u : NeedsUmlType) (p : string) :
  env self = Some e ->
  (forall x, x ∈ values (get_or_create_umls e) -> needuml_ready self w x) ->
  u ∈ values (get_or_create_umls e) ->
  save u = Some p ->
  PyStr.truthy p = true ->
  let w' := exec (NeedumlsBuilder_finish self) w in
  (PyStr.startswith_sep p = true ->
   (p, Text (content_calculated u)) ∈ writes_of (trace w'))
  /\ (PyStr.startswith_sep p = false ->
      exists sep, (sep = "" \/ sep = "/")
                  /\ (outdir self +:+ sep +:+ p, Text (content_calculated u))
                     ∈ writes_of (trace w')).
Proof.
  intros Hbound Hready Hin Hsave Htruthy w'.
  assert (Hset : save_is_set u = true) by (unfold save_is_set; now rewrite Hsave).
  assert (Hwritten : (needuml_path self u, Text (content_calculated u))
                     ∈ writes_of (trace w')).
  { unfold w', exec. rewrite (NeedumlsBuilder_finish_loop self e w Hbound).
    rewrite (needuml_loop_eq self _ w Hready). simpl.
    rewrite needuml_steps_writes, elem_of_app. right.
    apply (list_elem_of_fmap_2 (fun x => (needuml_path self x, Text (content_calculated x)))).
    apply list_elem_of_In, filter_In. split; [now apply list_elem_of_In|exact Hset]. }
  unfold needuml_path, save_path_of, os_path.join in Hwritten.
  rewrite Hsave in Hwritten. simpl in Hwritten.
  split; intros Hsep; rewrite Hsep in Hwritten.
  - exact Hwritten.
  - destruct (negb (PyStr.truthy (outdir self)) || PyStr.endswith_sep (outdir self)).
    + exists "". split; [now left|exact Hwritten].
    + exists "/". split; [now right|exact Hwritten].
Qed.

Lemma NeedumlsBuilder_finish_save_path_destination_witness :
  ("/srv/pumls/abs.puml", Text "@startuml abs")
  ∈ writes_of (trace (exec (NeedumlsBuilder_finish Demo.diagrams_builder) Demo.empty_world)).
Proof.
  refine (proj1 (NeedumlsBuilder_finish_save_path_destination Demo.diagrams_builder
                   Demo.diagrams_environment Demo.empty_world Demo.U5 "/srv/pumls/abs.puml"
                   eq_refl _ _ eq_refl eq_refl) eq_refl).
  - intros x Hx Hset. split; [right; reflexivity|reflexivity].
  - right. right. right. left.
Defined.

(** Run by the hook beside another builder, the diagram exporter stores
    the diagrams below the configured subfolder of the output directory
    of the application. *)
Theorem build_needumls_pumls_stores_in_subfolder
    (filter_needs : NeedsSphinxConfig -> list NeedsInfoType -> string -> list NeedsInfoType)
    (app : Sphinx) (_exception : option exn) (w : World) :
  let subfolder := build_needumls (needs_options (config (app_env app))) in
  let target := os_path.join (app_outdir app) subfolder in
  let needumls := values (get_or_create_umls (app_env app)) in
  PyStr.truthy subfolder = true ->
  isinstance (app_builder app) NeedumlsBuilder = false ->
  (forall u, u ∈ needumls ->
             needuml_ready (set_outdir (secondary_builder NeedumlsBuilder app) target) w u) ->
  outcome (build_needumls_pumls filter_needs app _exception) w = Ok tt
  /\ writes_of (trace (exec (build_needumls_pumls filter_needs app _exception) w))
     = (writes_of (trace w)
        ++ map (fun u => (os_path.join target (save_path_of u), Text (content_calculated u)))
             (List.filter save_is_set needumls))%list.
Proof.
  intros subfolder target needumls Hflag Hinst Hready.
  unfold outcome, exec. rewrite build_needumls_pumls_cases.
  fold subfolder. rewrite Hflag, Hinst. cbn [negb]. fold target.
  rewrite (NeedumlsBuilder_finish_loop _ (app_env app)) by reflexivity.
  rewrite needuml_loop_eq by exact Hready. simpl.
  split; [reflexivity|]. apply needuml_steps_writes.
Qed.

Lemma build_needumls_pumls_stores_in_subfolder_witness :
  writes_of (trace (exec (build_needumls_pumls Demo.filter_needs (Demo.app Demo.html 4) None)
                      Demo.world))
  = [("_build/pumls/sub/dir/out.puml", Text "@startuml")].
Proof.
  refine (proj2 (build_needumls_pumls_stores_in_subfolder Demo.filter_needs
                   (Demo.app Demo.html 4) None Demo.world eq_refl eq_refl _)).
  intros u Hu. apply elem_of_cons in Hu as [->|Hu].
  - intros _. split; [right; reflexivity|reflexivity].
  - apply list_elem_of_singleton in Hu as ->. intros Hset. discriminate Hset.
Defined.

(** ** The class hierarchy and the guards of the hooks *)

Lemma isinstance_concrete (b : BuilderObj) (c : BuilderClass) :
  c ∈ [NeedsBuilder; NeedumlsBuilder; NeedsIdBuilder] ->
  isinstance b c = true <-> cls b = c.
Proof.
  rewrite !elem_of_cons, elem_of_nil. unfold isinstance.
  intros [->|[->|[->|[]]]]; destruct (cls b); split; intros H;
    try reflexivity; try discriminate H; try (vm_compute in H; discriminate H).
Qed.

(** The guard of a hook looks at the class of its own builder only: a
    primary builder of any other class, one of the two other builders of
    this module included, does not keep an enabled hook from running. *)
Theorem hooks_run_beside_other_builders
    (filter_needs : NeedsSphinxConfig -> list NeedsInfoType -> string -> list NeedsInfoType)
    (app : Sphinx) (_exception : option exn) (w : World) :
  let options := needs_options (config (app_env app)) in
  (build_json options = true -> cls (app_builder app) <> NeedsBuilder ->
   build_needs_json filter_needs app _exception w
   = NeedsBuilder_finish filter_needs (secondary_builder NeedsBuilder app) w)
  /\ (build_json_per_id options = true -> cls (app_builder app) <> NeedsIdBuilder ->
      build_needs_id_json filter_needs app _exception w
      = NeedsIdBuilder_finish filter_needs (secondary_builder NeedsIdBuilder app) w)
  /\ (PyStr.truthy (build_needumls options) = true ->
      cls (app_builder app) <> NeedumlsBuilder ->
      build_needumls_pumls filter_needs app _exception w
      = NeedumlsBuilder_finish
          (set_outdir (secondary_builder NeedumlsBuilder app)
             (os_path.join (app_outdir app) (build_needumls options))) w).
Proof.
  intros options.
  assert (Hguard : forall c, c ∈ [NeedsBuilder; NeedumlsBuilder; NeedsIdBuilder] ->
                             cls (app_builder app) <> c ->
                             isinstance (app_builder app) c = false).
  { intros c Hc Hne. destruct (isinstance (app_builder app) c) eqn:Hinst; [|reflexivity].
    apply (isinstance_concrete _ c Hc) in Hinst. contradiction. }
  split; [|split]; intros Hflag Hcls.
  - rewrite build_needs_json_cases. fold options.
    rewrite Hflag, (Hguard NeedsBuilder) by (trivial; set_solver). reflexivity.
  - rewrite build_needs_id_json_cases. fold options.
    rewrite Hflag, (Hguard NeedsIdBuilder) by (trivial; set_solver). reflexivity.
  - rewrite build_needumls_pumls_cases. fold options.
    rewrite Hflag, (Hguard NeedumlsBuilder) by (trivial; set_solver). reflexivity.
Qed.

Lemma hooks_run_beside_other_builders_witness :
  build_needs_json Demo.filter_needs (Demo.app (Demo.builder NeedsIdBuilder) 7) None Demo.world
  = NeedsBuilder_finish Demo.filter_needs
      (secondary_builder NeedsBuilder (Demo.app (Demo.builder NeedsIdBuilder) 7)) Demo.world.
Proof.
  apply (proj1 (hooks_run_beside_other_builders Demo.filter_needs
                  (Demo.app (Demo.builder NeedsIdBuilder) 7) None Demo.world)).
  - reflexivity.
  - discriminate.
Defined.

(** ** The two JSON exporters side by side *)

Lemma filter_all_permitted {A} (P : A -> bool) (l : list A) :
  (forall x, x ∈ l -> P x = true) -> List.filter P l = l.
Proof.
  induction l as [|x l IH]; intros Hall; [reflexivity|]. simpl.
  rewrite (Hall x) by now left. f_equal. apply IH. intros y Hy. apply Hall. now right.
Qed.

(** [NeedsBuilder] and [NeedsIdBuilder] export the same needs in the same
    order: when every write is permitted, the per-need files written are,
    one for one, the needs listed for the current version in the needs
    file. *)
Theorem exporters_export_the_same_needs
    (filter_needs : NeedsSphinxConfig -> list NeedsInfoType -> string -> list NeedsInfoType)
    (self : BuilderObj) (e : BuildEnvironment) (w : World) :
  env self = Some e ->
  load_returns self w = true ->
  write_error w !! needs_json_path self = None ->
  can_ensure_dir (needs_id_dir self) w ->
  (forall n, n ∈ filter_needs (needs_config self) (values (get_or_create_needs e))
                   (builder_filter (needs_config self)) ->
             write_error w !! need_json_path self n = None) ->
  let version := getattr_version (config e) in
  exists d,
    file_doc (exec (NeedsBuilder_finish filter_needs self) w) (needs_json_path self) = Some d
    /\ writes_of (trace (exec (NeedsIdBuilder_finish filter_needs self) w))
       = (writes_of (trace w)
          ++ map (fun n => (need_json_path self n, JsonDoc (single_need_doc version n)))
               (version_needs version d))%list.
Proof.
  intros Hbound Hload Herr Hcan Hall version.
  exists (needs_list (exported_needs_list filter_needs self e (loaded_needs_list self e w))).
  split.
  - unfold exec.
    rewrite (NeedsBuilder_finish_write_ok filter_needs self e Hbound w Hload Herr).
    unfold file_doc. simpl. now rewrite lookup_insert_eq.
  - unfold version_needs, version. rewrite (exported_entry filter_needs self e). simpl.
    unfold exec. rewrite (NeedsIdBuilder_finish_eq filter_needs self e Hbound w Hcan). simpl.
    rewrite (need_id_steps_trace self e _ _ w) by apply ensure_dir_write_error.
    rewrite writes_of_snoc, app_nil_r. unfold writes_of at 1. rewrite omap_app.
    fold (writes_of (trace (ensure_dir (needs_id_dir self) w))).
    fold (writes_of (map (need_id_event self (getattr_version (config e)) w)
                       (filter_needs (needs_config self) (values (get_or_create_needs e))
                          (builder_filter (needs_config self))))).
    rewrite ensure_dir_writes, need_id_events_writes, filter_all_permitted; [reflexivity|].
    intros n Hn. unfold need_write_permitted. apply bool_decide_eq_true. now apply Hall.
Qed.

Lemma exporters_export_the_same_needs_witness :
  exists d,
    file_doc (exec (NeedsBuilder_finish Demo.filter_needs (Demo.builder NeedsBuilder))
                Demo.empty_world) "_build/needs.json" = Some d
    /\ writes_of (trace (exec (NeedsIdBuilder_finish Demo.filter_needs
                                 (Demo.builder NeedsBuilder)) Demo.empty_world))
       = map (fun n => (need_json_path (Demo.builder NeedsBuilder) n,
                        JsonDoc (single_need_doc "1.0" n)))
           (version_needs "1.0" d).
Proof.
  apply (exporters_export_the_same_needs Demo.filter_needs (Demo.builder NeedsBuilder)
           Demo.environment Demo.empty_world).
  - reflexivity.
  - reflexivity.
  - reflexivity.
  - right. reflexivity.
  - intros n Hn. reflexivity.
Defined.
